(** * RaceHub explorer view: the reconciliation engine of the VS Code extension

    A shallow embedding of [vscode-extension/src/views/racehubView.ts]
    (class [RaceHubViewProvider]) and of the command wrapper of the
    extension's entry point.  The provider's fields are a record, every
    call that leaves the provider (registry, workspace, build, prompts,
    context keys, change event) is logged in a trace, and the answers of
    the outside world are supplied by an environment that may depend on
    everything that was called before. *)

From Stdlib Require Import ZArith.
From Stdlib Require Import Strings.Byte.
From stdpp Require Import base strings list gmap pretty.

(** ** Data model *)

(** [type ViewState] and [type ViewStateDetail] (two independent unions). *)
Inductive ViewState := loggedOut | needsWorkspace | ready.

Inductive ViewStateDetail :=
  none | notLoggedIn | sessionExpired | workspaceMissing | noBinaries | requestError.

(** [LocalBinary] of [../workspace]: name, root path, optional source file. *)
Record LocalBinary := mkLocalBinary {
  bin_name : string;
  rootPath : string;
  sourcePath : option string
}.

(** [ArtifactSummary] of [../types], with the fields the view reads. *)
Record ArtifactSummary := mkArtifactSummary {
  id : Z;
  name : string;
  owner_username : string;
  is_public : bool;
  owned_by_me : bool
}.

Inductive RootNodeKind := localRoot | remoteRoot.

Inductive Node :=
| NRoot (kind : RootNodeKind)
| NLocalBin (bin : LocalBinary)
| NRemoteArtifact (artifact : ArtifactSummary)
| NMessage (message : string).

(** A tree item carries its node; [item?: RaceHubItem] is [option RaceHubItem]. *)
Record RaceHubItem := mkItem { node : Node }.

(** The fields of [RaceHubViewProvider]. *)
Record Provider := mkProvider {
  state : ViewState;
  stateDetail : ViewStateDetail;
  token : option string;
  workspaceRoot : option string;
  localBinaries : list LocalBinary;
  artifacts : list ArtifactSummary
}.

(** Field initialisers of the class (lines 105-110). *)
Definition initialProvider : Provider :=
  mkProvider loggedOut notLoggedIn None None [] [].

(** The legal details of each state, as the view documents them (loggedOut:
    login prompt, session expired, request error; needsWorkspace: missing
    workspace, no binaries; ready: none). *)
Definition legalDetail (s : ViewState) (d : ViewStateDetail) : bool :=
  match s, d with
  | loggedOut, (notLoggedIn | sessionExpired | requestError) => true
  | needsWorkspace, (workspaceMissing | noBinaries) => true
  | ready, none => true
  | _, _ => false
  end.

(** ** JavaScript values the code tests *)

(** [!x] for [x : string | undefined]: undefined and the empty string are falsy. *)
Definition falsy (x : option string) : bool :=
  match x with
  | None => true
  | Some s => if decide (s = EmptyString) then true else false
  end.

(** [hay.includes(needle)]. *)
Fixpoint includes (hay needle : string) : bool :=
  String.prefix needle hay ||
  match hay with
  | EmptyString => false
  | String _ rest => includes rest needle
  end.

(** [String(new Error(msg))]. *)
Definition Error (msg : string) : string := "Error: " +:+ msg.

(** ** The outside world *)

Record Capabilities := mkCapabilities { auth_required : bool }.

Record UploadRequest := mkUploadRequest {
  up_name : string;
  up_note : option string;
  up_target : string;
  elf_base64 : string
}.

Record UploadResponse := mkUploadResponse { artifact_id : Z }.

Record QuickPickItem := mkPick {
  label : string;
  description : string;
  pick_bin : LocalBinary
}.

Inductive ContextValue :=
| CtxState (s : ViewState)
| CtxDetail (d : ViewStateDetail)
| CtxPaths (allowed : gmap string bool).

(** One entry per call that leaves the provider, with its arguments. *)
Inductive Event :=
| EGetWorkspaceRoot
| EFetchCapabilities
| EReadToken
| EClearToken
| EHasCargoToml (root : string)
| EListLocalBinaries (root : string)
| EListArtifacts (tok : option string)
| EUploadArtifact (req : UploadRequest) (tok : option string)
| EDeleteArtifact (artifact : Z) (tok : option string)
| EUpdateArtifactVisibility (artifact : Z) (public : bool) (tok : option string)
| EBuildBinary (root bin : string)
| EExistsSync (file : string)
| EReadFileSync (file : string)
| EDefaultArtifactTarget
| EShowInputBox (title value : string)
| EShowQuickPick (items : list QuickPickItem) (title : string)
| EShowWarningMessage (msg : string) (modal : bool) (buttons : list string)
| EShowInformationMessage (msg : string)
| EShowErrorMessage (msg : string)
| ERevealFileInOS (file : string)
| ESetContext (key : string) (value : ContextValue)
| EFire.

(** Calls to the remote registry ([../api]). *)
Definition isNetwork (e : Event) : bool :=
  match e with
  | EFetchCapabilities | EListArtifacts _ | EUploadArtifact _ _
  | EDeleteArtifact _ _ | EUpdateArtifactVisibility _ _ _ => true
  | _ => false
  end.

(** Registry calls that change the registry. *)
Definition isMutation (e : Event) : bool :=
  match e with
  | EUploadArtifact _ _ | EDeleteArtifact _ _ | EUpdateArtifactVisibility _ _ _ => true
  | _ => false
  end.

(** Workspace inspection that reads the manifest or the sources. *)
Definition isInspection (e : Event) : bool :=
  match e with
  | EHasCargoToml _ | EListLocalBinaries _ => true
  | _ => false
  end.

(** A call returns a value or throws; the payload of [Throw] is the thrown
    value as [String(error)] shows it, which is all the code looks at. *)
Inductive Result (A : Type) :=
| Ok (a : A)
| Throw (error : string).
Arguments Ok {A} a.
Arguments Throw {A} error.

(** What the collaborators answer.  Every answer may depend on the calls
    made so far (the history), so one environment describes any sequence of
    outcomes.  Functions of the runtime that only compute are given without
    a history. *)
Record Env := mkEnv {
  on_getWorkspaceRoot : list Event -> option string;
  on_fetchCapabilities : list Event -> Result Capabilities;
  on_hasCargoToml : list Event -> string -> Result bool;
  on_listLocalBinaries : list Event -> string -> Result (list LocalBinary);
  on_listArtifacts : list Event -> option string -> Result (list ArtifactSummary);
  on_uploadArtifact : list Event -> UploadRequest -> option string -> Result UploadResponse;
  on_deleteArtifact : list Event -> Z -> option string -> Result unit;
  on_updateArtifactVisibility : list Event -> Z -> bool -> option string -> Result unit;
  on_buildBinary : list Event -> string -> string -> Result unit;
  on_existsSync : list Event -> string -> bool;
  on_readFileSync : list Event -> string -> Result (list byte);
  on_defaultArtifactTarget : list Event -> Result string;
  on_showInputBox : list Event -> string -> string -> Result (option string);
  on_showQuickPick : list Event -> list QuickPickItem -> string -> Result (option QuickPickItem);
  on_showWarningMessage : list Event -> string -> list string -> Result (option string);
  on_revealFileInOS : list Event -> string -> Result unit;
  artifactOutputPath : string -> string -> string;
  path_normalize : string -> string;
  uri_fsPath : string -> string;
  uri_path : string -> string;
  trim : string -> string;
  base64 : list byte -> string
}.

(** The provider, the session store and the log of calls. *)
Record Machine := mkMachine {
  this : Provider;
  secrets : option string;
  trace : list Event
}.

(** ** The monad of provider methods: environment, state, exceptions.
    A throw keeps the state reached so far, as assignments to [this] do. *)
Definition M (A : Type) : Type := Env -> Machine -> Result A * Machine.

Definition ret {A} (a : A) : M A := fun _ m => (Ok a, m).

Definition throw {A} (e : string) : M A := fun _ m => (Throw e, m).

Definition bind {A B} (c : M A) (k : A -> M B) : M B :=
  fun env m =>
    match c env m with
    | (Ok a, m') => k a env m'
    | (Throw e, m') => (Throw e, m')
    end.

Definition try_catch {A} (body : M A) (handler : string -> M A) : M A :=
  fun env m =>
    match body env m with
    | (Ok a, m') => (Ok a, m')
    | (Throw e, m') => handler e env m'
    end.

Declare Scope prog_scope.
Delimit Scope prog_scope with prog.
Notation "x <- c ; k" := (bind c (fun x => k))
  (at level 100, c at next level, right associativity) : prog_scope.
Notation "c ;; k" := (bind c (fun _ => k))
  (at level 100, right associativity) : prog_scope.
Local Open Scope prog_scope.

Definition result {A} (c : M A) (env : Env) (m : Machine) : Result A := fst (c env m).
Definition after {A} (c : M A) (env : Env) (m : Machine) : Machine := snd (c env m).

(** The events a run adds to the log. *)
Definition log (m : Machine) (e : Event) : Machine :=
  mkMachine (this m) (secrets m) (trace m ++ [e]).

(** A call that may throw, answered from the history before it. *)
Definition call {A} (e : Event) (answer : Env -> list Event -> Result A) : M A :=
  fun env m => (answer env (trace m), log m e).

(** A call that always answers. *)
Definition query {A} (e : Event) (answer : Env -> list Event -> A) : M A :=
  fun env m => (Ok (answer env (trace m)), log m e).

(** A call that hands something to the editor and cannot fail (context keys,
    the change event, messages that are not awaited). *)
Definition emit (e : Event) : M unit := fun _ m => (Ok tt, log m e).

Definition pure {A} (f : Env -> A) : M A := fun env m => (Ok (f env), m).

Definition get {A} (f : Provider -> A) : M A := fun _ m => (Ok (f (this m)), m).

Definition modify (f : Provider -> Provider) : M unit :=
  fun _ m => (Ok tt, mkMachine (f (this m)) (secrets m) (trace m)).

Definition set_state (s : ViewState) : M unit :=
  modify (fun p => mkProvider s (stateDetail p) (token p) (workspaceRoot p)
                               (localBinaries p) (artifacts p)).
Definition set_stateDetail (d : ViewStateDetail) : M unit :=
  modify (fun p => mkProvider (state p) d (token p) (workspaceRoot p)
                               (localBinaries p) (artifacts p)).
Definition set_token (t : option string) : M unit :=
  modify (fun p => mkProvider (state p) (stateDetail p) t (workspaceRoot p)
                               (localBinaries p) (artifacts p)).
Definition set_workspaceRoot (r : option string) : M unit :=
  modify (fun p => mkProvider (state p) (stateDetail p) (token p) r
                               (localBinaries p) (artifacts p)).
Definition set_localBinaries (l : list LocalBinary) : M unit :=
  modify (fun p => mkProvider (state p) (stateDetail p) (token p) (workspaceRoot p)
                               l (artifacts p)).
Definition set_artifacts (l : list ArtifactSummary) : M unit :=
  modify (fun p => mkProvider (state p) (stateDetail p) (token p) (workspaceRoot p)
                               (localBinaries p) l).

(** ** The collaborators, one module per imported source module *)

Module api.
Definition fetchCapabilities : M Capabilities :=
  call EFetchCapabilities on_fetchCapabilities.
Definition listArtifacts (tok : option string) : M (list ArtifactSummary) :=
  call (EListArtifacts tok) (fun env h => on_listArtifacts env h tok).
Definition uploadArtifact (req : UploadRequest) (tok : option string) : M UploadResponse :=
  call (EUploadArtifact req tok) (fun env h => on_uploadArtifact env h req tok).
Definition deleteArtifact (artifact : Z) (tok : option string) : M unit :=
  call (EDeleteArtifact artifact tok) (fun env h => on_deleteArtifact env h artifact tok).
Definition updateArtifactVisibility (artifact : Z) (public : bool) (tok : option string)
  : M unit :=
  call (EUpdateArtifactVisibility artifact public tok)
       (fun env h => on_updateArtifactVisibility env h artifact public tok).
End api.

Module auth.
(** Modelled from the spec: [readToken] of [../auth], which is not among the
    sources, as [get() -> token?] of the session store: it answers the
    opaque token the store holds, if any. *)
Definition readToken : M (option string) :=
  fun _ m => (Ok (secrets m), log m EReadToken).

(** Modelled from the spec: [clearToken] of [../auth], which is not among the
    sources, as [clear()] of the session store: the store holds no token
    afterwards. *)
Definition clearToken : M unit :=
  fun _ m => (Ok tt, mkMachine (this m) None (trace m ++ [EClearToken])).
End auth.

Module workspace.
(** The root folder of the workspace, if one is open; a lookup in the
    editor's own state, taken never to throw (line 118 calls it outside the
    [try]). *)
Definition getWorkspaceRoot : M (option string) :=
  query EGetWorkspaceRoot on_getWorkspaceRoot.
Definition hasCargoToml (root : string) : M bool :=
  call (EHasCargoToml root) (fun env h => on_hasCargoToml env h root).
Definition listLocalBinaries (root : string) : M (list LocalBinary) :=
  call (EListLocalBinaries root) (fun env h => on_listLocalBinaries env h root).
End workspace.

Module build.
Definition buildBinary (root bin : string) : M unit :=
  call (EBuildBinary root bin) (fun env h => on_buildBinary env h root bin).
End build.

Module config.
Definition defaultArtifactTarget : M string :=
  call EDefaultArtifactTarget on_defaultArtifactTarget.
End config.

Module fs.
(** [fs.existsSync] answers false instead of throwing. *)
Definition existsSync (file : string) : M bool :=
  query (EExistsSync file) (fun env h => on_existsSync env h file).
Definition readFileSync (file : string) : M (list byte) :=
  call (EReadFileSync file) (fun env h => on_readFileSync env h file).
End fs.

Module vscode.
(** [executeCommand('setContext', key, value)]: stores a context key of the
    editor; taken never to reject. *)
Definition setContext (key : string) (value : ContextValue) : M unit :=
  emit (ESetContext key value).
(** [onDidChangeTreeDataEmitter.fire(undefined)]; the emitter keeps the
    errors of its listeners to itself. *)
Definition fire : M unit := emit EFire.
(** [void showInformationMessage(msg)] and [void showErrorMessage(msg)]: not
    awaited. *)
Definition showInformationMessage (msg : string) : M unit :=
  emit (EShowInformationMessage msg).
Definition showErrorMessage (msg : string) : M unit :=
  emit (EShowErrorMessage msg).
(** [void showWarningMessage(msg)]: not awaited, no buttons. *)
Definition showWarningMessage (msg : string) : M unit :=
  emit (EShowWarningMessage msg false []).
(** [await showWarningMessage(msg, { modal: true }, ...buttons)]. *)
Definition showWarningMessageModal (msg : string) (buttons : list string)
  : M (option string) :=
  call (EShowWarningMessage msg true buttons)
       (fun env h => on_showWarningMessage env h msg buttons).
Definition showInputBox (title value : string) : M (option string) :=
  call (EShowInputBox title value) (fun env h => on_showInputBox env h title value).
Definition showQuickPick (items : list QuickPickItem) (title : string)
  : M (option QuickPickItem) :=
  call (EShowQuickPick items title) (fun env h => on_showQuickPick env h items title).
Definition revealFileInOS (file : string) : M unit :=
  call (ERevealFileInOS file) (fun env h => on_revealFileInOS env h file).
End vscode.

(** ** Rendering helpers (lines 64-99) *)

Definition itemLabel (n : Node) : string :=
  match n with
  | NRoot localRoot => "Local Binaries"
  | NRoot remoteRoot => "Remote Artifacts"
  | NLocalBin bin => bin_name bin
  | NRemoteArtifact artifact => name artifact
  | NMessage message => message
  end.

Definition contextValue (n : Node) : string :=
  match n with
  | NRoot localRoot => "localRoot"
  | NRoot remoteRoot => "remoteRoot"
  | NLocalBin _ => "localBin"
  | NRemoteArtifact artifact =>
      if owned_by_me artifact then "remoteArtifactOwned" else "remoteArtifact"
  | NMessage _ => "message"
  end.

(** ** RaceHubViewProvider *)

(** [obj[key] = value] on a plain object, for a value that is a boolean:
    the key becomes an own key of the object, except [__proto__], which is
    the accessor of [Object.prototype] and whose setter ignores a value that
    is not an object, so that nothing is stored. *)
Definition assign (key : string) (value : bool) (obj : gmap string bool)
  : gmap string bool :=
  if decide (key = "__proto__") then obj else <[key := value]> obj.

(** The object [allowed] that [pushBinSourcePathsContext] fills (lines 179-189),
    as the map of its own keys. *)
Definition binSourcePaths (env : Env) (bins : list LocalBinary) : gmap string bool :=
  foldl (fun allowed bin =>
           if falsy (sourcePath bin) then allowed
           else
             let normalizedFsPath := path_normalize env (default EmptyString (sourcePath bin)) in
             assign (uri_path env normalizedFsPath) true
               (assign (uri_fsPath env normalizedFsPath) true
                  (assign normalizedFsPath true allowed)))
        ∅ bins.

Definition pushBinSourcePathsContext : M unit :=
  bins <- get localBinaries;
  allowed <- pure (fun env => binSourcePaths env bins);
  vscode.setContext "racehub.binSourcePaths" (CtxPaths allowed).

Definition pushContext : M unit :=
  s <- get state;
  vscode.setContext "racehub.state" (CtxState s);;
  d <- get stateDetail;
  vscode.setContext "racehub.stateDetail" (CtxDetail d);;
  pushBinSourcePathsContext.

(** Lines 135-156: what the [try] block does once the session is settled. *)
Definition refreshArtifacts_workspace : M unit :=
  root <- get workspaceRoot;
  manifest <- (if falsy root then ret false
               else workspace.hasCargoToml (default EmptyString root));
  if negb manifest then
    set_state needsWorkspace;;
    set_stateDetail workspaceMissing;;
    pushContext;;
    vscode.fire
  else
    bins <- workspace.listLocalBinaries (default EmptyString root);
    set_localBinaries bins;;
    bins <- get localBinaries;
    if decide (length bins = 0) then
      set_state needsWorkspace;;
      set_stateDetail noBinaries;;
      pushContext;;
      vscode.fire
    else
      set_state ready;;
      set_stateDetail none;;
      tok <- get token;
      list <- api.listArtifacts tok;
      set_artifacts list;;
      pushContext;;
      vscode.fire.

(** Lines 121-156: the [try] block. *)
Definition refreshArtifacts_try : M unit :=
  caps <- api.fetchCapabilities;
  if auth_required caps then
    tok <- auth.readToken;
    set_token tok;;
    tok <- get token;
    if falsy tok then
      set_state loggedOut;;
      set_stateDetail notLoggedIn;;
      pushContext;;
      vscode.fire
    else refreshArtifacts_workspace
  else
    set_token None;;
    refreshArtifacts_workspace.

(** Lines 157-169: the [catch] block; [message] is [String(error)]. *)
Definition refreshArtifacts_catch (message : string) : M unit :=
  (if includes message "401" then
     auth.clearToken;;
     set_state loggedOut;;
     set_stateDetail sessionExpired
   else
     set_state loggedOut;;
     set_stateDetail requestError);;
  pushContext;;
  vscode.fire.

(** Lines 115-118: the assignments before the [try]. *)
Definition refreshArtifacts_reset : M unit :=
  set_artifacts [];;
  set_stateDetail none;;
  set_localBinaries [];;
  root <- workspace.getWorkspaceRoot;
  set_workspaceRoot root.

(** Lines 114-170. *)
Definition refreshArtifacts : M unit :=
  refreshArtifacts_reset;;
  try_catch refreshArtifacts_try refreshArtifacts_catch.

Definition getChildren (p : Provider) (element : option RaceHubItem) : list RaceHubItem :=
  match element with
  | None =>
      match state p with
      | loggedOut | needsWorkspace => []
      | ready => [mkItem (NRoot localRoot); mkItem (NRoot remoteRoot)]
      end
  | Some element =>
      match node element with
      | NRoot localRoot => map (fun bin => mkItem (NLocalBin bin)) (localBinaries p)
      | NRoot remoteRoot =>
          if decide (length (artifacts p) = 0)
          then [mkItem (NMessage "No artifacts found")]
          else map (fun artifact => mkItem (NRemoteArtifact artifact)) (artifacts p)
      | _ => []
      end
  end.

(** Lines 380-389. *)
Definition getCurrentLocalBinaries : M (list LocalBinary) :=
  workspaceRoot <- workspace.getWorkspaceRoot;
  manifest <- (if falsy workspaceRoot then ret false
               else workspace.hasCargoToml (default EmptyString workspaceRoot));
  if negb manifest then ret []
  else
    set_workspaceRoot workspaceRoot;;
    bins <- workspace.listLocalBinaries (default EmptyString workspaceRoot);
    set_localBinaries bins;;
    get localBinaries.

(** Lines 342-378. *)
Definition uploadFromLocalBinary (bin : LocalBinary) (defaultName : string) : M unit :=
  build.buildBinary (rootPath bin) (bin_name bin);;
  elfPath <- pure (fun env => artifactOutputPath env (rootPath bin) (bin_name bin));
  found <- fs.existsSync elfPath;
  if negb found then throw (Error ("ELF not found after build: " +:+ elfPath))
  else
    name <- vscode.showInputBox "Artifact Name" defaultName;
    if falsy name then ret tt
    else
      note <- vscode.showInputBox "Artifact Note (optional)" EmptyString;
      target <- config.defaultArtifactTarget;
      bytes <- fs.readFileSync elfPath;
      trimmed <- pure (fun env => trim env (default EmptyString note));
      encoded <- pure (fun env => base64 env bytes);
      tok <- get token;
      data <- api.uploadArtifact
                (mkUploadRequest
                   (default EmptyString name)
                   (if negb (falsy note) && bool_decide (0 < String.length trimmed)
                    then Some trimmed else None)
                   target
                   encoded)
                tok;
      vscode.showInformationMessage
        ("Artifact uploaded: #" +:+ pretty (artifact_id data) +:+ " from '"
           +:+ bin_name bin +:+ "'").

(** Lines 221-228. *)
Definition buildBinaryItem (item : option RaceHubItem) : M unit :=
  match node <$> item with
  | Some (NLocalBin bin) =>
      build.buildBinary (rootPath bin) (bin_name bin);;
      vscode.showInformationMessage ("Built binary '" +:+ bin_name bin +:+ "'")
  | _ => ret tt
  end.

(** Lines 230-242. *)
Definition revealElfPath (item : option RaceHubItem) : M unit :=
  match node <$> item with
  | Some (NLocalBin bin) =>
      elfPath <- pure (fun env => artifactOutputPath env (rootPath bin) (bin_name bin));
      found <- fs.existsSync elfPath;
      if negb found
      then throw (Error ("ELF not found: " +:+ elfPath +:+ ". Build the binary first."))
      else vscode.revealFileInOS elfPath
  | _ => ret tt
  end.

(** Lines 244-252. *)
Definition buildAndUploadBinary (item : option RaceHubItem) : M unit :=
  match node <$> item with
  | Some (NLocalBin bin) =>
      uploadFromLocalBinary bin (bin_name bin);;
      refreshArtifacts
  | _ => ret tt
  end.

(** Lines 254-295. *)
Definition replaceArtifact (item : option RaceHubItem) : M unit :=
  match node <$> item with
  | Some (NRemoteArtifact artifact) =>
      if negb (owned_by_me artifact)
      then throw (Error "You can only replace artifacts you own.")
      else
        bins <- getCurrentLocalBinaries;
        if decide (length bins = 0)
        then throw (Error "No local binaries available in the current bot workspace.")
        else
          picked <- vscode.showQuickPick
                      (map (fun bin =>
                              mkPick (bin_name bin)
                                     (default (rootPath bin) (sourcePath bin))
                                     bin)
                           bins)
                      ("Replace artifact '" +:+ name artifact +:+ "' with local binary");
          match picked with
          | None => ret tt
          | Some picked =>
              uploadFromLocalBinary (pick_bin picked) (name artifact);;
              try_catch
                (tok <- get token;
                 api.deleteArtifact (id artifact) tok;;
                 vscode.showInformationMessage
                   ("Replaced artifact '" +:+ name artifact
                      +:+ "' by uploading new build and deleting #"
                      +:+ pretty (id artifact)))
                (fun error =>
                   vscode.showWarningMessage
                     ("Uploaded replacement, but failed to delete old artifact #"
                        +:+ pretty (id artifact) +:+ ": " +:+ error));;
              refreshArtifacts
          end
  | _ => ret tt
  end.

(** Lines 297-321. *)
Definition deleteArtifact (item : option RaceHubItem) : M unit :=
  match node <$> item with
  | Some (NRemoteArtifact artifact) =>
      if negb (owned_by_me artifact)
      then throw (Error "You can only delete artifacts you own.")
      else
        confirmed <- vscode.showWarningMessageModal
                       ("Delete artifact '" +:+ name artifact +:+ "' (#"
                          +:+ pretty (id artifact) +:+ ")?")
                       ["Delete"];
        if decide (confirmed = Some "Delete") then
          tok <- get token;
          api.deleteArtifact (id artifact) tok;;
          vscode.showInformationMessage
            ("Deleted artifact '" +:+ name artifact +:+ "' (#"
               +:+ pretty (id artifact) +:+ ")");;
          refreshArtifacts
        else ret tt
  | _ => ret tt
  end.

(** Lines 323-340. *)
Definition toggleVisibility (item : option RaceHubItem) : M unit :=
  match node <$> item with
  | Some (NRemoteArtifact artifact) =>
      if negb (owned_by_me artifact)
      then throw (Error "You can only change visibility of artifacts you own.")
      else
        let nextPublic := negb (is_public artifact) in
        tok <- get token;
        api.updateArtifactVisibility (id artifact) nextPublic tok;;
        vscode.showInformationMessage
          ("Artifact '" +:+ name artifact +:+ "' is now "
             +:+ (if nextPublic then "public" else "private"));;
        refreshArtifacts
  | _ => ret tt
  end.

(** [registerCommand] of the extension's entry point: the error of a command
    is shown to the operator and goes no further. *)
Definition registerCommand (fn : M unit) : M unit :=
  try_catch fn (fun error => vscode.showErrorMessage error).

(** The commands of the view, as [activate] registers them. *)
Inductive Command :=
| view_refresh
| view_buildAndUpload (item : option RaceHubItem)
| view_buildBinary (item : option RaceHubItem)
| view_revealElfPath (item : option RaceHubItem)
| view_replaceArtifact (item : option RaceHubItem)
| view_deleteArtifact (item : option RaceHubItem)
| view_toggleVisibility (item : option RaceHubItem).

Definition handler (c : Command) : M unit :=
  match c with
  | view_refresh => refreshArtifacts
  | view_buildAndUpload item => buildAndUploadBinary item
  | view_buildBinary item => buildBinaryItem item
  | view_revealElfPath item => revealElfPath item
  | view_replaceArtifact item => replaceArtifact item
  | view_deleteArtifact item => deleteArtifact item
  | view_toggleVisibility item => toggleVisibility item
  end.

Definition executeCommand (c : Command) : M unit := registerCommand (handler c).

(** Commands run one after the other; a command never fails as a whole,
    [registerCommand] shows its error instead. *)
Fixpoint executeCommands (cs : list Command) : M unit :=
  match cs with
  | [] => ret tt
  | c :: cs => executeCommand c;; executeCommands cs
  end.

Definition legal (p : Provider) : Prop := legalDetail (state p) (stateDetail p) = true.

(** ** Reading a run *)

(** The events a run added to the log of [m]. *)
Definition added (m m' : Machine) : list Event := drop (length (trace m)) (trace m').

(** What [pushContext] followed by [fire] publishes for a provider. *)
Definition publication (env : Env) (p : Provider) : list Event :=
  [ ESetContext "racehub.state" (CtxState (state p));
    ESetContext "racehub.stateDetail" (CtxDetail (stateDetail p));
    ESetContext "racehub.binSourcePaths" (CtxPaths (binSourcePaths env (localBinaries p)));
    EFire ].

Definition isListArtifacts (e : Event) : bool :=
  match e with EListArtifacts _ => true | _ => false end.

(** The log at the moment [refreshArtifacts] turns to the workspace: the
    root lookup, the capability probe and, when the server asks for a
    login, the token read. *)
Definition gateHistory (m : Machine) (caps : Capabilities) : list Event :=
  trace m ++ [EGetWorkspaceRoot; EFetchCapabilities]
          ++ (if auth_required caps then [EReadToken] else []).

(** What the world answers to a refresh started at [m] that finds its way
    to ready: a workspace root with a manifest, the binaries [found], and,
    past the session check, the artifact list [listing]. *)
Definition AnswersReady (env : Env) (m : Machine)
    (found : list LocalBinary) (listing : list ArtifactSummary) : Prop :=
  exists caps dir,
    on_getWorkspaceRoot env (trace m) = Some dir /\
    dir <> EmptyString /\
    on_fetchCapabilities env (trace m ++ [EGetWorkspaceRoot]) = Ok caps /\
    (auth_required caps = true -> falsy (secrets m) = false) /\
    on_hasCargoToml env (gateHistory m caps) dir = Ok true /\
    on_listLocalBinaries env (gateHistory m caps ++ [EHasCargoToml dir]) dir = Ok found /\
    found <> [] /\
    on_listArtifacts env
      ((gateHistory m caps ++ [EHasCargoToml dir]) ++ [EListLocalBinaries dir])
      (if auth_required caps then secrets m else None) = Ok listing.

Definition isLocalBinItem (item : option RaceHubItem) : bool :=
  match item with Some (mkItem (NLocalBin _)) => true | _ => false end.

Definition isRemoteArtifactItem (item : option RaceHubItem) : bool :=
  match item with Some (mkItem (NRemoteArtifact _)) => true | _ => false end.

(** ** What every refresh establishes *)

Record Settled (env : Env) (m m' : Machine) : Prop := mkSettled {
  settled_legal :
    legalDetail (state (this m')) (stateDetail (this m')) = true;
  settled_published :
    exists mid, trace m' = trace m ++ mid ++ publication env (this m')
                /\ Forall (fun e => isMutation e = false) mid;
  settled_binaries :
    localBinaries (this m') = [] \/
    exists h root, trace m `prefix_of` h /\
                   on_listLocalBinaries env h root = Ok (localBinaries (this m'));
  settled_empty :
    state (this m') = needsWorkspace \/ stateDetail (this m') = notLoggedIn ->
    localBinaries (this m') = [];
  settled_ready :
    state (this m') = ready ->
    localBinaries (this m') <> [] /\
    exists h tok, trace m `prefix_of` h /\
                  on_listArtifacts env h tok = Ok (artifacts (this m'));
  settled_artifacts :
    state (this m') <> ready -> artifacts (this m') = []
}.

(** ** Scenarios

    Environments whose answers do not depend on the history, for running
    the methods on concrete inputs. *)

Record Scenario := mkScenario {
  sc_capabilities : Result Capabilities;
  sc_root : option string;
  sc_manifest : Result bool;
  sc_binaries : Result (list LocalBinary);
  sc_artifacts : Result (list ArtifactSummary);
  sc_upload : Result UploadResponse;
  sc_delete : Result unit;
  sc_name : option string;
  sc_confirm : option string
}.

Definition scenarioEnv (sc : Scenario) : Env :=
  mkEnv
    (fun _ => sc_root sc)
    (fun _ => sc_capabilities sc)
    (fun _ _ => sc_manifest sc)
    (fun _ _ => sc_binaries sc)
    (fun _ _ => sc_artifacts sc)
    (fun _ _ _ => sc_upload sc)
    (fun _ _ _ => sc_delete sc)
    (fun _ _ _ _ => Ok tt)
    (fun _ _ _ => Ok tt)
    (fun _ _ => true)
    (fun _ _ => Ok [])
    (fun _ => Ok "riscv32")
    (fun _ title _ => if decide (title = "Artifact Name") then Ok (sc_name sc) else Ok None)
    (fun _ items _ => Ok (head items))
    (fun _ _ _ => Ok (sc_confirm sc))
    (fun _ _ => Ok tt)
    (fun root bin => root +:+ "/target/" +:+ bin)
    (fun file => file)
    (fun file => file)
    (fun file => file)
    (fun text => text)
    (fun _ => EmptyString).

(** The same environment with an operator who dismisses every quick pick. *)
Definition dismissingPick (env : Env) : Env :=
  mkEnv (on_getWorkspaceRoot env) (on_fetchCapabilities env) (on_hasCargoToml env)
        (on_listLocalBinaries env) (on_listArtifacts env) (on_uploadArtifact env)
        (on_deleteArtifact env) (on_updateArtifactVisibility env) (on_buildBinary env)
        (on_existsSync env) (on_readFileSync env) (on_defaultArtifactTarget env)
        (on_showInputBox env) (fun _ _ _ => Ok None) (on_showWarningMessage env)
        (on_revealFileInOS env) (artifactOutputPath env) (path_normalize env)
        (uri_fsPath env) (uri_path env) (trim env) (base64 env).

Definition car : LocalBinary := mkLocalBinary "car" "/bot" (Some "/bot/src/bin/car.rs").

Definition mine : ArtifactSummary := mkArtifactSummary 7 "car" "alice" false true.
Definition theirs : ArtifactSummary := mkArtifactSummary 8 "kart" "bob" true false.
Definition fresh : ArtifactSummary := mkArtifactSummary 42 "car" "alice" false true.

(** Standalone server, workspace with one binary, registry listing [arts]. *)
Definition standalone (arts : Result (list ArtifactSummary)) : Scenario :=
  mkScenario (Ok (mkCapabilities false)) (Some "/bot") (Ok true) (Ok [car]) arts
             (Ok (mkUploadResponse 42)) (Ok tt) (Some "car") (Some "Delete").

(** The provider as constructed, an empty session store, nothing called yet. *)
Definition freshMachine : Machine := mkMachine initialProvider None [].

(** A provider as a refresh left it in state ready, with two artifacts listed. *)
Definition readyMachine : Machine :=
  mkMachine (mkProvider ready none None (Some "/bot") [car] [mine; theirs]) None [].

(** ** More of the view *)

(** [vscode.TreeItemCollapsibleState]. *)
Inductive TreeItemCollapsibleState := CollapsibleNone | Collapsed | Expanded.

(** Lines 79-84. *)
Definition collapsibleState (n : Node) : TreeItemCollapsibleState :=
  match n with
  | NRoot _ => Expanded
  | _ => CollapsibleNone
  end.

(** [getTreeItem] (lines 193-195). *)
Definition getTreeItem (element : RaceHubItem) : RaceHubItem := element.

(** The keys one binary contributes to [allowed]. *)
Definition allowsPath (env : Env) (bin : LocalBinary) (k : string) : Prop :=
  exists sp, sourcePath bin = Some sp /\ sp <> EmptyString /\
    (k = path_normalize env sp \/
     k = uri_fsPath env (path_normalize env sp) \/
     k = uri_path env (path_normalize env sp)).

(** One turn of the loop of [pushBinSourcePathsContext]. *)
Definition allowBinary (env : Env) (allowed : gmap string bool) (bin : LocalBinary)
  : gmap string bool :=
  if falsy (sourcePath bin) then allowed
  else
    let normalizedFsPath := path_normalize env (default EmptyString (sourcePath bin)) in
    assign (uri_path env normalizedFsPath) true
      (assign (uri_fsPath env normalizedFsPath) true
         (assign normalizedFsPath true allowed)).

(** What [pushContext] and [fire] hand to the editor. *)
Definition isPublication (e : Event) : bool :=
  match e with ESetContext _ _ | EFire => true | _ => false end.

Definition isDelete (e : Event) : bool :=
  match e with EDeleteArtifact _ _ => true | _ => false end.

(** An environment whose answers to the calls of a refresh are the same
    whatever was called before. *)
Definition Stationary (env : Env) : Prop :=
  (forall h, on_getWorkspaceRoot env h = on_getWorkspaceRoot env []) /\
  (forall h, on_fetchCapabilities env h = on_fetchCapabilities env []) /\
  (forall h root, on_hasCargoToml env h root = on_hasCargoToml env [] root) /\
  (forall h root, on_listLocalBinaries env h root = on_listLocalBinaries env [] root) /\
  (forall h tok, on_listArtifacts env h tok = on_listArtifacts env [] tok).

(** ** Stepping through a method *)

Ltac unfold_calls :=
  unfold api.fetchCapabilities, api.listArtifacts, api.uploadArtifact,
    api.deleteArtifact, api.updateArtifactVisibility,
    auth.readToken, auth.clearToken,
    workspace.getWorkspaceRoot, workspace.hasCargoToml, workspace.listLocalBinaries,
    build.buildBinary, config.defaultArtifactTarget,
    fs.existsSync, fs.readFileSync,
    vscode.setContext, vscode.fire, vscode.showInformationMessage,
    vscode.showErrorMessage, vscode.showWarningMessage,
    vscode.showWarningMessageModal, vscode.showInputBox, vscode.showQuickPick,
    vscode.revealFileInOS in *.

Ltac unfold_monad :=
  unfold set_state, set_stateDetail, set_token, set_workspaceRoot,
    set_localBinaries, set_artifacts, modify, get, pure, emit, query, call,
    try_catch, bind, ret, throw, log in *.

Ltac step := unfold_calls; unfold_monad; cbn [this secrets trace state stateDetail
  token workspaceRoot localBinaries artifacts fst snd] in *.

Lemma pushContext_run env m :
  pushContext env m
  = (Ok tt,
     mkMachine (this m) (secrets m)
       (trace m ++
          [ ESetContext "racehub.state" (CtxState (state (this m)));
            ESetContext "racehub.stateDetail" (CtxDetail (stateDetail (this m)));
            ESetContext "racehub.binSourcePaths"
              (CtxPaths (binSourcePaths env (localBinaries (this m)))) ])).
Proof.
  unfold pushContext, pushBinSourcePathsContext. step.
  rewrite <- !app_assoc. reflexivity.
Qed.

Ltac reduce :=
  cbn [this secrets trace state stateDetail token workspaceRoot localBinaries
       artifacts fst snd auth_required negb] in *.

(** Follow the method along every answer the environment can give. *)
Ltac crunch :=
  repeat (reduce;
    match goal with
    | |- context [pushContext ?e ?m] => rewrite (pushContext_run e m)
    | |- context [match ?x with Ok _ => _ | Throw _ => _ end] => destruct x eqn:?
    | |- context [if ?b then _ else _] => destruct b eqn:?
    | |- context [match ?x with Some _ => _ | None => _ end] => destruct x eqn:?
    | |- context [let (_, _) := ?x in _] => destruct x eqn:?
    end);
  reduce.

(** The log grew by some calls followed by a publication. *)
Ltac find_mid :=
  rewrite <- ?app_assoc; cbn [app publication];
  first
    [ exists []; split; [reflexivity | repeat constructor]
    | eexists [_]; split; [reflexivity | repeat constructor]
    | eexists [_; _]; split; [reflexivity | repeat constructor]
    | eexists [_; _; _]; split; [reflexivity | repeat constructor]
    | eexists [_; _; _; _]; split; [reflexivity | repeat constructor]
    | eexists [_; _; _; _; _]; split; [reflexivity | repeat constructor]
    | eexists [_; _; _; _; _; _]; split; [reflexivity | repeat constructor]
    | eexists [_; _; _; _; _; _; _]; split; [reflexivity | repeat constructor] ].

Lemma prefix_of_log (t h : list Event) : t `prefix_of` h -> forall e, t `prefix_of` h ++ [e].
Proof. intros H e. apply prefix_app_r. exact H. Qed.

Ltac extends := repeat apply prefix_of_log; reflexivity.

Lemma refreshArtifacts_settles env m :
  exists m', refreshArtifacts env m = (Ok tt, m') /\ Settled env m m'.
Proof.
  destruct m as [p s t].
  unfold refreshArtifacts, refreshArtifacts_reset, refreshArtifacts_try,
    refreshArtifacts_workspace, refreshArtifacts_catch.
  step. crunch.
  all: eexists; split; [reflexivity |].
  all: constructor; reduce.
  all: try reflexivity.
  all: try (intros [?|?]; congruence).
  all: try (intros ?; congruence).
  all: try (left; reflexivity).
  all: try find_mid.
  all: try (intros _; reflexivity).
  all: try (intros _; apply nil_length_inv; assumption).
  all: try (left; apply nil_length_inv; assumption).
  all: try (right; eexists _, _; split; [| eassumption]; extends).
  all: intros _; split;
    [ intros ->; cbn in *; congruence
    | eexists _, _; split; [| eassumption]; extends ].
Qed.

Example scenario_ready :
  let m' := after refreshArtifacts (scenarioEnv (standalone (Ok []))) freshMachine in
  state (this m') = ready /\ map bin_name (localBinaries (this m')) = ["car"]
  /\ artifacts (this m') = []
  /\ map (fun i => itemLabel (node i)) (getChildren (this m') (Some (mkItem (NRoot remoteRoot))))
     = ["No artifacts found"].
Proof. vm_compute. repeat split. Qed.

Example build_and_upload_then_listed :
  let m' := after (buildAndUploadBinary (Some (mkItem (NLocalBin car))))
                  (scenarioEnv (standalone (Ok [fresh]))) freshMachine in
  state (this m') = ready /\ artifacts (this m') = [fresh] /\
  In (EShowInformationMessage "Artifact uploaded: #42 from 'car'") (trace m').
Proof. vm_compute. repeat split. repeat (first [left; reflexivity | right]). Qed.

Example includes_marker :
  includes "Error: request failed with status 401" "401" = true /\
  includes "Error: connect ECONNREFUSED 127.0.0.1:8787" "401" = false /\
  includes "Error: 40 1" "401" = false.
Proof. repeat split. Qed.

Lemma added_app (m m' : Machine) (l : list Event) :
  trace m' = trace m ++ l -> added m m' = l.
Proof. intros H. unfold added. rewrite H. apply drop_app_length. Qed.

Lemma refreshArtifacts_result env m : result refreshArtifacts env m = Ok tt.
Proof.
  destruct (refreshArtifacts_settles env m) as (m' & H & _).
  unfold result. rewrite H. reflexivity.
Qed.

Lemma refreshArtifacts_after env m : Settled env m (after refreshArtifacts env m).
Proof.
  destruct (refreshArtifacts_settles env m) as (m' & H & S).
  unfold after. rewrite H. exact S.
Qed.

(** ** The refresh state machine *)

(** C1: every run of [refreshArtifacts] returns normally, ends in one of the
    three states with a detail that is legal for it, and the last thing it did
    was to publish exactly that status ([pushContext]) and fire the change
    event. *)
Theorem refresh_settles_and_publishes env m :
  result refreshArtifacts env m = Ok tt /\
  let m' := after refreshArtifacts env m in
  legalDetail (state (this m')) (stateDetail (this m')) = true /\
  exists mid, trace m' = trace m ++ mid ++ publication env (this m').
Proof.
  split; [apply refreshArtifacts_result |].
  destruct (refreshArtifacts_after env m) as [Hl (mid & Hp & _) _ _ _ _].
  cbn zeta. split; [exact Hl | exists mid; exact Hp].
Qed.

Lemma refreshArtifacts_reset_run env m :
  refreshArtifacts_reset env m
  = (Ok tt,
     mkMachine (mkProvider (state (this m)) none (token (this m))
                           (on_getWorkspaceRoot env (trace m)) [] [])
               (secrets m) (trace m ++ [EGetWorkspaceRoot])).
Proof. unfold refreshArtifacts_reset. step. reflexivity. Qed.

Lemma refreshArtifacts_catch_run message env m :
  refreshArtifacts_catch message env m
  = (Ok tt,
     let unauthorized := includes message "401" in
     let p := mkProvider loggedOut (if unauthorized then sessionExpired else requestError)
                         (token (this m)) (workspaceRoot (this m))
                         (localBinaries (this m)) (artifacts (this m)) in
     mkMachine p (if unauthorized then None else secrets m)
               (trace m ++ (if unauthorized then [EClearToken] else [])
                        ++ publication env p)).
Proof.
  unfold refreshArtifacts_catch. step. cbn zeta.
  destruct (includes message "401"); reduce; rewrite pushContext_run; reduce;
    rewrite <- ?app_assoc; reflexivity.
Qed.

Lemma refreshArtifacts_try_secrets env m :
  secrets (after refreshArtifacts_try env m) = secrets m.
Proof.
  destruct m as [p s t].
  unfold after, refreshArtifacts_try, refreshArtifacts_workspace.
  step. crunch. all: reflexivity.
Qed.

(** C3: when the [try] block of [refreshArtifacts] (capability probe up to
    the artifact list) throws, the refresh still returns normally in state
    loggedOut; if the stringified error contains 401 the stored token is
    cleared and the detail is sessionExpired, otherwise the detail is
    requestError and the stored token is what it was. *)
Theorem refresh_classifies_errors env m error m2 :
  refreshArtifacts_try env (after refreshArtifacts_reset env m) = (Throw error, m2) ->
  result refreshArtifacts env m = Ok tt /\
  let m' := after refreshArtifacts env m in
  state (this m') = loggedOut /\
  (includes error "401" = true ->
   stateDetail (this m') = sessionExpired /\ secrets m' = None) /\
  (includes error "401" = false ->
   stateDetail (this m') = requestError /\ secrets m' = secrets m).
Proof.
  intros Htry.
  split; [apply refreshArtifacts_result |].
  pose proof (refreshArtifacts_try_secrets env (after refreshArtifacts_reset env m)) as Hs.
  unfold after in *. unfold refreshArtifacts, bind, try_catch.
  rewrite refreshArtifacts_reset_run in *. reduce.
  rewrite Htry in *. reduce.
  rewrite refreshArtifacts_catch_run. cbn zeta. reduce.
  split; [reflexivity |].
  split; intros ->; split; congruence.
Qed.

Lemma refresh_classifies_errors_witness :
  let env := scenarioEnv (mkScenario (Throw "Error: GET /api/v1/capabilities failed: 401")
                                     None (Ok false) (Ok []) (Ok []) (Throw EmptyString) (Throw EmptyString)
                                     None None) in
  let m := mkMachine initialProvider (Some "t0k3n") [] in
  let m' := after refreshArtifacts env m in
  result refreshArtifacts env m = Ok tt /\
  state (this m') = loggedOut /\
  (includes "Error: GET /api/v1/capabilities failed: 401" "401" = true ->
   stateDetail (this m') = sessionExpired /\ secrets m' = None) /\
  (includes "Error: GET /api/v1/capabilities failed: 401" "401" = false ->
   stateDetail (this m') = requestError /\ secrets m' = Some "t0k3n").
Proof.
  intros env m.
  apply (refresh_classifies_errors env m "Error: GET /api/v1/capabilities failed: 401"
           (after refreshArtifacts_try env (after refreshArtifacts_reset env m))).
  vm_compute. reflexivity.
Defined.

(** C6: when the capability probe reports [auth_required] and the session
    store holds no token, the refresh ends in loggedOut / notLoggedIn, and
    what it called is the root lookup, the probe, the token read and the
    publication: neither [hasCargoToml], nor [listLocalBinaries], nor the
    artifact list. *)
Theorem refresh_without_session env m :
  on_fetchCapabilities env (trace m ++ [EGetWorkspaceRoot]) = Ok (mkCapabilities true) ->
  secrets m = None ->
  result refreshArtifacts env m = Ok tt /\
  let m' := after refreshArtifacts env m in
  state (this m') = loggedOut /\
  stateDetail (this m') = notLoggedIn /\
  added m m' = [EGetWorkspaceRoot; EFetchCapabilities; EReadToken]
                 ++ publication env (this m') /\
  Forall (fun e => isInspection e = false /\ isListArtifacts e = false) (added m m').
Proof.
  intros Hcaps Hnone.
  split; [apply refreshArtifacts_result |].
  destruct m as [p s t]. reduce. subst s.
  assert (Hrun : exists m', refreshArtifacts env (mkMachine p None t) = (Ok tt, m') /\
            state (this m') = loggedOut /\ stateDetail (this m') = notLoggedIn /\
            trace m' = t ++ [EGetWorkspaceRoot; EFetchCapabilities; EReadToken]
                         ++ publication env (this m')).
  { unfold refreshArtifacts, refreshArtifacts_reset, refreshArtifacts_try.
    step. rewrite Hcaps. reduce. cbn [falsy]. rewrite pushContext_run. reduce.
    eexists. split; [reflexivity |]. reduce.
    repeat split. rewrite <- !app_assoc. reflexivity. }
  destruct Hrun as (m' & Hrun & Hs & Hd & Ht).
  unfold after. rewrite Hrun. cbn [snd].
  apply (added_app (mkMachine p None t)) in Ht.
  rewrite Ht. repeat split; try assumption.
  unfold publication. cbn [app]. repeat constructor.
Qed.

Lemma refresh_without_session_witness :
  let env := scenarioEnv (mkScenario (Ok (mkCapabilities true)) (Some "/bot") (Ok true)
                                     (Ok [car]) (Ok [mine]) (Throw EmptyString) (Throw EmptyString)
                                     None None) in
  let m' := after refreshArtifacts env readyMachine in
  result refreshArtifacts env readyMachine = Ok tt /\
  state (this m') = loggedOut /\
  stateDetail (this m') = notLoggedIn /\
  added readyMachine m' = [EGetWorkspaceRoot; EFetchCapabilities; EReadToken]
                            ++ publication env (this m') /\
  Forall (fun e => isInspection e = false /\ isListArtifacts e = false)
         (added readyMachine m').
Proof.
  intros env.
  apply (refresh_without_session env readyMachine); reflexivity.
Defined.

(** C7: a refresh that got past the session check (no login asked for, or a
    token at hand) ends in needsWorkspace / workspaceMissing without calling
    the artifact list when there is no workspace root or [hasCargoToml]
    answers false, and in needsWorkspace / noBinaries when the manifest is
    there and [listLocalBinaries] answers the empty list. *)
Theorem refresh_workspace_checks env m caps :
  on_fetchCapabilities env (trace m ++ [EGetWorkspaceRoot]) = Ok caps ->
  (auth_required caps = true -> falsy (secrets m) = false) ->
  let root := on_getWorkspaceRoot env (trace m) in
  let dir := default EmptyString root in
  let h := gateHistory m caps in
  let m' := after refreshArtifacts env m in
  (falsy root = true \/ (falsy root = false /\ on_hasCargoToml env h dir = Ok false) ->
   result refreshArtifacts env m = Ok tt /\
   state (this m') = needsWorkspace /\
   stateDetail (this m') = workspaceMissing /\
   Forall (fun e => isListArtifacts e = false) (added m m'))
  /\
  (falsy root = false ->
   on_hasCargoToml env h dir = Ok true ->
   on_listLocalBinaries env (h ++ [EHasCargoToml dir]) dir = Ok [] ->
   result refreshArtifacts env m = Ok tt /\
   state (this m') = needsWorkspace /\
   stateDetail (this m') = noBinaries).
Proof.
  intros Hcaps Hgate root dir h m'.
  assert (Hh : h = if auth_required caps
                   then ((trace m ++ [EGetWorkspaceRoot]) ++ [EFetchCapabilities])
                          ++ [EReadToken]
                   else (trace m ++ [EGetWorkspaceRoot]) ++ [EFetchCapabilities]).
  { unfold h, gateHistory. destruct (auth_required caps); rewrite <- !app_assoc; reflexivity. }
  clearbody h. subst h.
  split.
  - intros Hmissing.
    split; [apply refreshArtifacts_result |].
    assert (Hrun : exists mid, Forall (fun e => isListArtifacts e = false) mid /\
              state (this m') = needsWorkspace /\
              stateDetail (this m') = workspaceMissing /\
              trace m' = trace m ++ mid).
    { subst m' root dir. destruct m as [p s t].
      unfold after, refreshArtifacts, refreshArtifacts_reset, refreshArtifacts_try,
        refreshArtifacts_workspace.
      step. rewrite Hcaps. reduce.
      destruct (auth_required caps); reduce.
      - rewrite (Hgate eq_refl). reduce.
        destruct Hmissing as [Hr | [Hr Hm]]; rewrite Hr; reduce;
          try (rewrite Hm; reduce); rewrite pushContext_run; reduce;
          rewrite <- !app_assoc; cbn [app];
          (eexists; split; [| split; [reflexivity | split; [reflexivity | reflexivity]]]);
          repeat constructor.
      - destruct Hmissing as [Hr | [Hr Hm]]; rewrite Hr; reduce;
          try (rewrite Hm; reduce); rewrite pushContext_run; reduce;
          rewrite <- !app_assoc; cbn [app];
          (eexists; split; [| split; [reflexivity | split; [reflexivity | reflexivity]]]);
          repeat constructor. }
    destruct Hrun as (mid & Hmid & Hs & Hd & Ht).
    rewrite (added_app _ _ _ Ht). auto.
  - intros Hroot Hmanifest Hbins.
    split; [apply refreshArtifacts_result |].
    subst m' root dir. destruct m as [p s t].
    unfold after, refreshArtifacts, refreshArtifacts_reset, refreshArtifacts_try,
      refreshArtifacts_workspace.
    step. rewrite Hcaps. reduce.
    destruct (auth_required caps); reduce.
    + rewrite (Hgate eq_refl). reduce. rewrite Hroot. reduce.
      rewrite Hmanifest. reduce. rewrite Hbins. reduce. cbn [length].
      destruct (decide (0 = 0)); [| congruence].
      rewrite pushContext_run. reduce. split; reflexivity.
    + rewrite Hroot. reduce. rewrite Hmanifest. reduce. rewrite Hbins. reduce. cbn [length].
      destruct (decide (0 = 0)); [| congruence].
      rewrite pushContext_run. reduce. split; reflexivity.
Qed.

Lemma refresh_workspace_checks_witness :
  let noManifest := scenarioEnv (mkScenario (Ok (mkCapabilities false)) (Some "/bot")
                                   (Ok false) (Ok [car]) (Ok [mine])
                                   (Throw EmptyString) (Throw EmptyString) None None) in
  let noBins := scenarioEnv (mkScenario (Ok (mkCapabilities true)) (Some "/bot")
                               (Ok true) (Ok []) (Ok [mine])
                               (Throw EmptyString) (Throw EmptyString) None None) in
  let loggedIn := mkMachine initialProvider (Some "t0k3n") [] in
  (result refreshArtifacts noManifest freshMachine = Ok tt /\
   state (this (after refreshArtifacts noManifest freshMachine)) = needsWorkspace /\
   stateDetail (this (after refreshArtifacts noManifest freshMachine)) = workspaceMissing /\
   Forall (fun e => isListArtifacts e = false)
          (added freshMachine (after refreshArtifacts noManifest freshMachine)))
  /\
  (result refreshArtifacts noBins loggedIn = Ok tt /\
   state (this (after refreshArtifacts noBins loggedIn)) = needsWorkspace /\
   stateDetail (this (after refreshArtifacts noBins loggedIn)) = noBinaries).
Proof.
  intros noManifest noBins loggedIn. split.
  - apply (refresh_workspace_checks noManifest freshMachine (mkCapabilities false)).
    + reflexivity.
    + discriminate.
    + right. split; reflexivity.
  - apply (refresh_workspace_checks noBins loggedIn (mkCapabilities true)).
    + reflexivity.
    + reflexivity.
    + reflexivity.
    + reflexivity.
    + reflexivity.
Defined.

(** ** The status pair *)

Lemma refreshArtifacts_legal env m r m' :
  refreshArtifacts env m = (r, m') -> legal (this m').
Proof.
  intros H. pose proof (refreshArtifacts_after env m) as S.
  unfold after in S. rewrite H in S. exact (settled_legal _ _ _ S).
Qed.

(** No command leaves an illegal pair behind: a method either keeps [state]
    and [stateDetail] as they were or ends with a refresh. *)
Lemma executeCommand_legal (c : Command) env m :
  legal (this m) -> legal (this (after (executeCommand c) env m)).
Proof.
  intros Hm. destruct m as [p s t].
  unfold after, executeCommand, registerCommand, handler.
  destruct c as [|item|item|item|item|item|item];
    try (destruct item as [[[k|b|a|msg]]|]);
    unfold buildAndUploadBinary, buildBinaryItem, revealElfPath, replaceArtifact,
      deleteArtifact, toggleVisibility, uploadFromLocalBinary, getCurrentLocalBinaries;
    cbn [fmap option_fmap option_map node];
    step; crunch;
    first [ exact Hm
          | eapply refreshArtifacts_legal; eassumption ].
Qed.

Lemma executeCommands_legal (cs : list Command) env m :
  legal (this m) -> legal (this (after (executeCommands cs) env m)).
Proof.
  revert m. induction cs as [|c cs IH]; intros m Hm.
  - exact Hm.
  - pose proof (executeCommand_legal c env m Hm) as Hc.
    unfold after in *. cbn [executeCommands]. unfold bind.
    destruct (executeCommand c env m) as [[u|e] m1]; cbn [snd] in *.
    + apply IH. exact Hc.
    + exact Hc.
Qed.

(** C8, as stated, fails: [state] and [stateDetail] are two fields of
    independent types, so a provider with state ready and detail notLoggedIn
    is a value like any other, and [refreshArtifacts] itself passes through
    loggedOut with detail none right after its first assignments. *)
Lemma illegal_status_is_constructible :
  let p := mkProvider ready notLoggedIn None None [] [] in
  let q := this (after refreshArtifacts_reset (scenarioEnv (standalone (Ok []))) freshMachine) in
  legalDetail (state p) (stateDetail p) = false /\
  state q = loggedOut /\ stateDetail q = none /\
  legalDetail (state q) (stateDetail q) = false.
Proof. vm_compute. repeat split. Qed.

(** C8, amended: legality of the pair is kept by the methods, not by the
    types: the provider starts with a legal pair, and after any sequence of
    the view's commands, whatever the outside world answers, the pair is
    legal again. *)
Theorem status_legal_by_convention (cs : list Command) env (stored : option string)
    (history : list Event) :
  legal initialProvider /\
  legal (this (after (executeCommands cs) env (mkMachine initialProvider stored history))).
Proof.
  split; [reflexivity |].
  apply executeCommands_legal. reflexivity.
Qed.

(** ** The local-binary snapshot *)

(** C9, as stated, fails: when the artifact list throws after the binaries
    were enumerated, the refresh ends in loggedOut / requestError with the
    binaries still in [localBinaries]; and outside a refresh, Replace
    re-reads the workspace through [getCurrentLocalBinaries] whatever the
    state is, so a provider in needsWorkspace can come to hold binaries. *)
Lemma binaries_survive_failed_listing :
  let failing := scenarioEnv (standalone (Throw "Error: GET /api/v1/artifacts failed: 500")) in
  let m' := after refreshArtifacts failing freshMachine in
  let stale := mkMachine (mkProvider needsWorkspace noBinaries None (Some "/bot") [] [])
                         None [] in
  let m'' := after (replaceArtifact (Some (mkItem (NRemoteArtifact mine))))
                   (dismissingPick (scenarioEnv (standalone (Ok [mine])))) stale in
  (state (this m') = loggedOut /\ stateDetail (this m') = requestError /\
   localBinaries (this m') = [car])
  /\
  (state (this m'') = needsWorkspace /\ localBinaries (this m'') = [car]).
Proof. vm_compute. repeat split. Qed.

(** C9, amended: after every refresh the collection is empty when the state
    is needsWorkspace or the detail is notLoggedIn, and non-empty when the
    state is ready; it is always either empty or the very list that
    [listLocalBinaries] answered during this refresh, and nothing of the
    collection held before the refresh has any influence on the outcome. *)
Theorem refresh_replaces_local_binaries env m :
  let m' := after refreshArtifacts env m in
  (state (this m') = needsWorkspace \/ stateDetail (this m') = notLoggedIn ->
   localBinaries (this m') = []) /\
  (state (this m') = ready -> localBinaries (this m') <> []) /\
  (localBinaries (this m') = [] \/
   exists h root, trace m `prefix_of` h /\
                  on_listLocalBinaries env h root = Ok (localBinaries (this m'))) /\
  (forall old, refreshArtifacts env (after (set_localBinaries old) env m)
               = refreshArtifacts env m).
Proof.
  destruct (refreshArtifacts_after env m) as [_ _ Hb He Hr _].
  cbn zeta.
  split; [exact He |].
  split; [intros H; apply (Hr H) |].
  split; [exact Hb |].
  - intros old. destruct m as [p s t].
    unfold after, refreshArtifacts, refreshArtifacts_reset. step. reflexivity.
Qed.

Lemma refresh_replaces_local_binaries_witness :
  let env := scenarioEnv (mkScenario (Ok (mkCapabilities false)) (Some "/bot") (Ok true)
                            (Ok []) (Ok [mine]) (Throw EmptyString) (Throw EmptyString)
                            None None) in
  localBinaries (this (after refreshArtifacts env readyMachine)) = [] /\
  refreshArtifacts env (after (set_localBinaries [car; car]) env readyMachine)
    = refreshArtifacts env readyMachine.
Proof.
  intros env.
  destruct (refresh_replaces_local_binaries env readyMachine) as (Hempty & _ & _ & Hold).
  split.
  - apply Hempty. left. reflexivity.
  - apply Hold.
Defined.

(** ** The per-item methods *)

(** C10: a per-item method that is given no item, or an item whose node is
    not of the kind the method works on, returns normally and leaves the
    provider, the session store and the log of calls exactly as they were. *)
Theorem mismatched_item_is_ignored env m (item : option RaceHubItem) :
  (isLocalBinItem item = false ->
   buildAndUploadBinary item env m = (Ok tt, m) /\
   buildBinaryItem item env m = (Ok tt, m) /\
   revealElfPath item env m = (Ok tt, m))
  /\
  (isRemoteArtifactItem item = false ->
   replaceArtifact item env m = (Ok tt, m) /\
   deleteArtifact item env m = (Ok tt, m) /\
   toggleVisibility item env m = (Ok tt, m)).
Proof.
  split; intros H; destruct item as [[[k|b|a|msg]]|]; try discriminate H;
    repeat split.
Qed.

Lemma mismatched_item_is_ignored_witness :
  let env := scenarioEnv (standalone (Ok [mine])) in
  (buildAndUploadBinary (Some (mkItem (NRemoteArtifact mine))) env readyMachine
     = (Ok tt, readyMachine) /\
   buildBinaryItem (Some (mkItem (NRemoteArtifact mine))) env readyMachine
     = (Ok tt, readyMachine) /\
   revealElfPath (Some (mkItem (NRemoteArtifact mine))) env readyMachine
     = (Ok tt, readyMachine))
  /\
  (replaceArtifact (Some (mkItem (NLocalBin car))) env readyMachine = (Ok tt, readyMachine) /\
   deleteArtifact (Some (mkItem (NLocalBin car))) env readyMachine = (Ok tt, readyMachine) /\
   toggleVisibility (Some (mkItem (NLocalBin car))) env readyMachine = (Ok tt, readyMachine)).
Proof.
  intros env. split.
  - apply (mismatched_item_is_ignored env readyMachine (Some (mkItem (NRemoteArtifact mine)))).
    reflexivity.
  - apply (mismatched_item_is_ignored env readyMachine (Some (mkItem (NLocalBin car)))).
    reflexivity.
Defined.

(** Point at an event of a concrete log. *)
Ltac find_event := repeat (first [left; reflexivity | right]).

Ltac added_events :=
  erewrite added_app
    by (cbn [trace]; rewrite <- ?app_assoc; cbn [app]; reflexivity).

(** [getCurrentLocalBinaries] looks at the workspace only: it calls nothing
    of the registry and keeps the status, the token, the artifacts and the
    session store. *)
Lemma getCurrentLocalBinaries_offline env m :
  let m1 := after getCurrentLocalBinaries env m in
  Forall (fun e => isNetwork e = false) (added m m1) /\
  state (this m1) = state (this m) /\
  stateDetail (this m1) = stateDetail (this m) /\
  token (this m1) = token (this m) /\
  artifacts (this m1) = artifacts (this m) /\
  secrets m1 = secrets m.
Proof.
  destruct m as [p s t].
  unfold after, getCurrentLocalBinaries. step. crunch.
  all: split; [added_events; repeat constructor | repeat split].
Qed.

(** ** Preconditions of the artifact workflows *)

(** C4: Delete, Replace and ToggleVisibility on an artifact that is not
    owned throw their precondition error at once: nothing is called and the
    provider, the session store and the log are what they were (the command
    wrapper then shows the error).  Replace on an owned artifact throws when
    the workspace offers no local binary, having called nothing of the
    registry; Delete on an owned artifact returns silently, with the prompt
    as its only call, when the answer to the confirmation is not Delete. *)
Theorem preconditions_abort_before_network env m (a : ArtifactSummary) :
  let item := Some (mkItem (NRemoteArtifact a)) in
  let prompt := "Delete artifact '" +:+ name a +:+ "' (#" +:+ pretty (id a) +:+ ")?" in
  (owned_by_me a = false ->
   deleteArtifact item env m
     = (Throw (Error "You can only delete artifacts you own."), m) /\
   replaceArtifact item env m
     = (Throw (Error "You can only replace artifacts you own."), m) /\
   toggleVisibility item env m
     = (Throw (Error "You can only change visibility of artifacts you own."), m) /\
   executeCommand (view_deleteArtifact item) env m
     = (Ok tt, log m (EShowErrorMessage (Error "You can only delete artifacts you own."))))
  /\
  (owned_by_me a = true ->
   result getCurrentLocalBinaries env m = Ok [] ->
   replaceArtifact item env m
     = (Throw (Error "No local binaries available in the current bot workspace."),
        after getCurrentLocalBinaries env m) /\
   Forall (fun e => isNetwork e = false) (added m (after (replaceArtifact item) env m)))
  /\
  (owned_by_me a = true ->
   forall confirmed,
     on_showWarningMessage env (trace m) prompt ["Delete"] = Ok confirmed ->
     confirmed <> Some "Delete" ->
     deleteArtifact item env m = (Ok tt, log m (EShowWarningMessage prompt true ["Delete"])) /\
     Forall (fun e => isNetwork e = false) (added m (after (deleteArtifact item) env m))).
Proof.
  intros item prompt. split; [| split].
  - intros Hown.
    unfold executeCommand, registerCommand, handler, try_catch, item,
      deleteArtifact, replaceArtifact, toggleVisibility.
    cbn [fmap option_fmap option_map node]. rewrite Hown. cbn [negb].
    repeat split.
  - intros Hown Hbins.
    pose proof (getCurrentLocalBinaries_offline env m) as [Hoff _].
    unfold result, after in *.
    assert (Hrun : replaceArtifact item env m
                   = (Throw (Error "No local binaries available in the current bot workspace."),
                      snd (getCurrentLocalBinaries env m))).
    { unfold item, replaceArtifact. cbn [fmap option_fmap option_map node].
      rewrite Hown. cbn [negb]. unfold bind at 1.
      destruct (getCurrentLocalBinaries env m) as [r m1]. cbn [fst snd] in *.
      subst r. reflexivity. }
    rewrite Hrun. split; [reflexivity | exact Hoff].
  - intros Hown confirmed Hanswer Hno.
    assert (Hrun : deleteArtifact item env m
                   = (Ok tt, log m (EShowWarningMessage prompt true ["Delete"]))).
    { unfold item, deleteArtifact. cbn [fmap option_fmap option_map node].
      rewrite Hown. cbn [negb]. step. fold prompt. rewrite Hanswer.
      destruct (decide (confirmed = Some "Delete")) as [E|_]; [contradiction | reflexivity]. }
    unfold after. rewrite Hrun. split; [reflexivity |].
    cbn [snd]. unfold log. added_events. repeat constructor.
Qed.

Lemma preconditions_abort_before_network_witness :
  let prompt := "Delete artifact 'car' (#7)?" in
  let emptyWorkspace :=
    scenarioEnv (mkScenario (Ok (mkCapabilities false)) (Some "/bot") (Ok true) (Ok [])
                            (Ok [mine]) (Ok (mkUploadResponse 42)) (Ok tt)
                            (Some "car") None) in
  (deleteArtifact (Some (mkItem (NRemoteArtifact theirs))) emptyWorkspace readyMachine
     = (Throw (Error "You can only delete artifacts you own."), readyMachine) /\
   replaceArtifact (Some (mkItem (NRemoteArtifact theirs))) emptyWorkspace readyMachine
     = (Throw (Error "You can only replace artifacts you own."), readyMachine) /\
   toggleVisibility (Some (mkItem (NRemoteArtifact theirs))) emptyWorkspace readyMachine
     = (Throw (Error "You can only change visibility of artifacts you own."), readyMachine) /\
   executeCommand (view_deleteArtifact (Some (mkItem (NRemoteArtifact theirs))))
                  emptyWorkspace readyMachine
     = (Ok tt, log readyMachine
                   (EShowErrorMessage (Error "You can only delete artifacts you own."))))
  /\
  (replaceArtifact (Some (mkItem (NRemoteArtifact mine))) emptyWorkspace readyMachine
     = (Throw (Error "No local binaries available in the current bot workspace."),
        after getCurrentLocalBinaries emptyWorkspace readyMachine) /\
   Forall (fun e => isNetwork e = false)
          (added readyMachine
             (after (replaceArtifact (Some (mkItem (NRemoteArtifact mine))))
                    emptyWorkspace readyMachine)))
  /\
  (deleteArtifact (Some (mkItem (NRemoteArtifact mine))) emptyWorkspace readyMachine
     = (Ok tt, log readyMachine (EShowWarningMessage prompt true ["Delete"])) /\
   Forall (fun e => isNetwork e = false)
          (added readyMachine
             (after (deleteArtifact (Some (mkItem (NRemoteArtifact mine))))
                    emptyWorkspace readyMachine))).
Proof.
  intros prompt emptyWorkspace.
  split; [| split].
  - destruct (preconditions_abort_before_network emptyWorkspace readyMachine theirs)
      as (H & _ & _).
    apply H. reflexivity.
  - destruct (preconditions_abort_before_network emptyWorkspace readyMachine mine)
      as (_ & H & _).
    apply H; reflexivity.
  - destruct (preconditions_abort_before_network emptyWorkspace readyMachine mine)
      as (_ & _ & H).
    apply (H eq_refl None); [reflexivity | discriminate].
Defined.

(** ** Replace: upload, then best-effort delete *)

Lemma filter_no_mutation (l : list Event) :
  Forall (fun e => isMutation e = false) l -> List.filter isMutation l = [].
Proof.
  induction 1 as [|e l He _ IH]; [reflexivity |].
  cbn [List.filter]. rewrite He. exact IH.
Qed.

(** A refresh that gets these answers ends in ready, holding the binaries
    found and exactly the artifacts listed. *)
Lemma refreshArtifacts_ready env m found listing :
  AnswersReady env m found listing ->
  let m' := after refreshArtifacts env m in
  state (this m') = ready /\ stateDetail (this m') = none /\
  localBinaries (this m') = found /\ artifacts (this m') = listing.
Proof.
  intros (caps & dir & Hroot & Hdir & Hcaps & Hgate & Hmanifest & Hbins & Hfound & Hlist).
  assert (Hh : gateHistory m caps
               = if auth_required caps
                 then ((trace m ++ [EGetWorkspaceRoot]) ++ [EFetchCapabilities])
                        ++ [EReadToken]
                 else (trace m ++ [EGetWorkspaceRoot]) ++ [EFetchCapabilities]).
  { unfold gateHistory. destruct (auth_required caps); rewrite <- !app_assoc; reflexivity. }
  rewrite Hh in *. clear Hh.
  assert (Hfalsy : falsy (Some dir) = false).
  { cbn [falsy]. destruct (decide (dir = EmptyString)); [contradiction | reflexivity]. }
  assert (Hlen : length found <> 0).
  { destruct found; [contradiction | discriminate]. }
  destruct m as [p s t].
  unfold after, refreshArtifacts, refreshArtifacts_reset, refreshArtifacts_try,
    refreshArtifacts_workspace.
  step. rewrite Hcaps. reduce. rewrite Hroot in *.
  destruct (auth_required caps); reduce.
  - rewrite (Hgate eq_refl). reduce. rewrite Hfalsy. reduce. cbn [default from_option] in *.
    unfold Datatypes.id in *.
    rewrite Hmanifest. reduce. rewrite Hbins. reduce.
    destruct (decide (length found = 0)); [contradiction |]. reduce.
    rewrite Hlist. reduce. rewrite pushContext_run. reduce. repeat split.
  - rewrite Hfalsy. reduce. cbn [default from_option] in *.
    unfold Datatypes.id in *.
    rewrite Hmanifest. reduce. rewrite Hbins. reduce.
    destruct (decide (length found = 0)); [contradiction |]. reduce.
    rewrite Hlist. reduce. rewrite pushContext_run. reduce. repeat split.
Qed.

(** C5, as stated, fails in its last part: the refresh that follows the
    failed delete may fail too (here the artifact list throws as the delete
    did); Replace still returns normally after its warning, but the state is
    loggedOut and the snapshot is empty, new artifact included. *)
Lemma replace_snapshot_empty_when_refresh_fails :
  let env := scenarioEnv (mkScenario (Ok (mkCapabilities false)) (Some "/bot") (Ok true)
                            (Ok [car]) (Throw "Error: GET /api/v1/artifacts failed: 503")
                            (Ok (mkUploadResponse 42))
                            (Throw "Error: DELETE /api/v1/artifacts/7 failed: 503")
                            (Some "car") None) in
  let item := Some (mkItem (NRemoteArtifact mine)) in
  let m' := after (replaceArtifact item) env readyMachine in
  result (replaceArtifact item) env readyMachine = Ok tt /\
  List.filter isMutation (trace m')
    = [EUploadArtifact (mkUploadRequest "car" None "riscv32" EmptyString) None;
       EDeleteArtifact 7 None] /\
  state (this m') = loggedOut /\ stateDetail (this m') = requestError /\
  artifacts (this m') = [] /\ ~ In fresh (artifacts (this m')).
Proof. vm_compute. repeat split. intros []. Qed.

(** C5, amended: in Replace of an owned artifact, once the replacement is
    uploaded and the delete of the old artifact throws, the method shows a
    warning, goes on to [refreshArtifacts] and returns normally (the command
    wrapper shows no error); after the upload the only call that changes the
    registry is that failed delete, so the upload is not taken back.  When
    the refresh that follows gets its answers (a root with a manifest, local
    binaries, a session if one is asked for, the artifact list), the state is
    ready and the snapshot is exactly what the registry listed, so it holds
    the new artifact as soon as the registry lists it; in any other outcome of
    that refresh the snapshot is empty. *)
Theorem replace_survives_failed_delete env m (a : ArtifactSummary)
    bins m1 picked m2 req tok error :
  let item := Some (mkItem (NRemoteArtifact a)) in
  let items := map (fun bin => mkPick (bin_name bin)
                                      (default (rootPath bin) (sourcePath bin)) bin) bins in
  let title := "Replace artifact '" +:+ name a +:+ "' with local binary" in
  owned_by_me a = true ->
  getCurrentLocalBinaries env m = (Ok bins, m1) ->
  length bins <> 0 ->
  on_showQuickPick env (trace m1) items title = Ok (Some picked) ->
  uploadFromLocalBinary (pick_bin picked) (name a) env (log m1 (EShowQuickPick items title))
    = (Ok tt, m2) ->
  In (EUploadArtifact req tok) (added m1 m2) ->
  on_deleteArtifact env (trace m2) (id a) (token (this m2)) = Throw error ->
  let failed := EDeleteArtifact (id a) (token (this m2)) in
  let warning :=
    EShowWarningMessage
      ("Uploaded replacement, but failed to delete old artifact #"
         +:+ pretty (id a) +:+ ": " +:+ error) false [] in
  let warned := log (log m2 failed) warning in
  let m' := after (replaceArtifact item) env m in
  replaceArtifact item env m = refreshArtifacts env warned /\
  result (replaceArtifact item) env m = Ok tt /\
  executeCommand (view_replaceArtifact item) env m = replaceArtifact item env m /\
  List.filter isMutation (added m2 m') = [failed] /\
  (forall found listing,
     AnswersReady env warned found listing ->
     state (this m') = ready /\ artifacts (this m') = listing /\
     (forall new : ArtifactSummary, In new listing -> In new (artifacts (this m')))) /\
  (state (this m') <> ready -> artifacts (this m') = []).
Proof.
  intros item items title Hown Hbins Hlen Hpick Hupload _ Hdelete failed warning warned m'.
  assert (Hrun : replaceArtifact item env m = refreshArtifacts env warned).
  { unfold item, replaceArtifact. cbn [fmap option_fmap option_map node].
    rewrite Hown. cbn [negb]. unfold bind at 1. rewrite Hbins.
    destruct (decide (length bins = 0)) as [E|_]; [contradiction |].
    unfold bind at 1. unfold vscode.showQuickPick, call.
    fold items. fold title. rewrite Hpick. cbv beta iota.
    unfold bind at 1. rewrite Hupload. cbv beta iota.
    unfold bind at 1. unfold try_catch, bind, get, api.deleteArtifact, call.
    cbv beta iota. rewrite Hdelete. reflexivity. }
  destruct (refreshArtifacts_settles env warned)
    as (mr & Hrefresh & [_ (mid & Htrace & Hmid) _ _ _ Harts]).
  assert (Hm' : m' = mr).
  { unfold m', after. rewrite Hrun, Hrefresh. reflexivity. }
  split; [exact Hrun |].
  split; [unfold result; rewrite Hrun, Hrefresh; reflexivity |].
  split.
  { unfold executeCommand, registerCommand, handler, try_catch.
    rewrite Hrun, Hrefresh. reflexivity. }
  split; [| split].
  - rewrite Hm'.
    assert (Hadded : added m2 mr = [failed; warning] ++ mid ++ publication env (this mr)).
    { apply added_app. rewrite Htrace. unfold warned, log. cbn [trace].
      rewrite <- !app_assoc. reflexivity. }
    rewrite Hadded. cbn [app List.filter isMutation failed warning].
    rewrite List.filter_app, (filter_no_mutation mid Hmid). reflexivity.
  - intros found listing Hanswers.
    destruct (refreshArtifacts_ready env warned found listing Hanswers)
      as (Hstate & _ & _ & Hlisting).
    assert (Hafter : m' = after refreshArtifacts env warned).
    { unfold m', after. rewrite Hrun. reflexivity. }
    rewrite Hafter. split; [exact Hstate |]. split; [exact Hlisting |].
    intros new Hnew. rewrite Hlisting. exact Hnew.
  - rewrite Hm'. exact Harts.
Qed.

Lemma replace_survives_failed_delete_witness :
  let env := scenarioEnv (mkScenario (Ok (mkCapabilities false)) (Some "/bot") (Ok true)
                            (Ok [car]) (Ok [mine; fresh]) (Ok (mkUploadResponse 42))
                            (Throw "Error: DELETE /api/v1/artifacts/7 failed: 500")
                            (Some "car") None) in
  let item := Some (mkItem (NRemoteArtifact mine)) in
  let m' := after (replaceArtifact item) env readyMachine in
  result (replaceArtifact item) env readyMachine = Ok tt /\
  executeCommand (view_replaceArtifact item) env readyMachine
    = replaceArtifact item env readyMachine /\
  In (EShowWarningMessage
        "Uploaded replacement, but failed to delete old artifact #7: Error: DELETE /api/v1/artifacts/7 failed: 500"
        false []) (trace m') /\
  List.filter isMutation (trace m')
    = [EUploadArtifact (mkUploadRequest "car" None "riscv32" EmptyString) None;
       EDeleteArtifact 7 None] /\
  state (this m') = ready /\
  artifacts (this m') = [mine; fresh] /\
  In fresh (artifacts (this m')).
Proof.
  intros env item m'.
  pose (picked := mkPick "car" "/bot/src/bin/car.rs" car).
  pose (m1 := after getCurrentLocalBinaries env readyMachine).
  pose (m2 := after (uploadFromLocalBinary car "car") env
                (log m1 (EShowQuickPick [picked] "Replace artifact 'car' with local binary"))).
  destruct (replace_survives_failed_delete env readyMachine mine [car] m1 picked m2
              (mkUploadRequest "car" None "riscv32" EmptyString) None
              "Error: DELETE /api/v1/artifacts/7 failed: 500")
    as (_ & Hresult & Hcommand & _ & Hsnapshot & _).
  - reflexivity.
  - reflexivity.
  - discriminate.
  - reflexivity.
  - reflexivity.
  - vm_compute. find_event.
  - reflexivity.
  - split; [exact Hresult |].
    split; [exact Hcommand |].
    split; [vm_compute; find_event |].
    split; [vm_compute; reflexivity |].
    destruct (Hsnapshot [car] [mine; fresh]) as (Hstate & Hlisting & Hnew).
    + exists (mkCapabilities false), "/bot".
      repeat split; first [reflexivity | discriminate].
    + split; [exact Hstate |]. split; [exact Hlisting |].
      apply Hnew. right. left. reflexivity.
Defined.

(** ** Replace when the name prompt is dismissed *)

(** C2 fails on Replace: [uploadFromLocalBinary] returns without uploading
    when the name prompt is dismissed, and [replaceArtifact] cannot tell, so
    it deletes the old artifact, announces a replacement and refreshes: of
    the two registry calls of the workflow only the delete is issued. *)
Lemma replace_deletes_without_upload :
  let env := scenarioEnv (mkScenario (Ok (mkCapabilities false)) (Some "/bot") (Ok true)
                            (Ok [car]) (Ok [theirs]) (Ok (mkUploadResponse 42)) (Ok tt)
                            None None) in
  let item := Some (mkItem (NRemoteArtifact mine)) in
  let m' := after (replaceArtifact item) env readyMachine in
  result (replaceArtifact item) env readyMachine = Ok tt /\
  List.filter isMutation (added readyMachine m') = [EDeleteArtifact 7 None] /\
  In (EShowInformationMessage
        "Replaced artifact 'car' by uploading new build and deleting #7") (trace m') /\
  state (this m') = ready /\ artifacts (this m') = [theirs].
Proof.
  vm_compute. repeat split. find_event.
Qed.

(** ** The tree *)

(** X1: the tree has two levels below the top: the top level is the two
    roots, Local Binaries then Remote Artifacts, in state ready and empty in
    the other states; the roots are shown expanded; and every child of any
    element is a leaf, shown without a twistie and with no children of its
    own. *)
Theorem tree_has_two_levels (p : Provider) :
  getChildren p None
  = match state p with
    | ready => [mkItem (NRoot localRoot); mkItem (NRoot remoteRoot)]
    | loggedOut | needsWorkspace => []
    end /\
  (forall top, In top (getChildren p None) -> collapsibleState (node top) = Expanded) /\
  (forall element child,
     In child (getChildren p (Some element)) ->
     collapsibleState (node child) = CollapsibleNone /\
     getChildren p (Some child) = []).
Proof.
  split; [| split].
  - cbn [getChildren]. destruct (state p); reflexivity.
  - intros top Htop. cbn [getChildren] in Htop.
    destruct (state p); cbn in Htop; try contradiction.
    destruct Htop as [<- | [<- | []]]; reflexivity.
  - intros element child Hchild.
    assert (Hleaf : collapsibleState (node child) = CollapsibleNone).
    { destruct element as [[[|]|b|a|msg]]; cbn [getChildren node] in Hchild.
      - apply List.in_map_iff in Hchild as (b & <- & _). reflexivity.
      - destruct (decide (length (artifacts p) = 0)).
        + destruct Hchild as [<- | []]. reflexivity.
        + apply List.in_map_iff in Hchild as (a & <- & _). reflexivity.
      - destruct Hchild.
      - destruct Hchild.
      - destruct Hchild. }
    split; [exact Hleaf |].
    destruct child as [[k|b|a|msg]]; cbn in Hleaf; try discriminate; reflexivity.
Qed.

Lemma tree_has_two_levels_witness :
  let p := this readyMachine in
  let child := mkItem (NRemoteArtifact mine) in
  getChildren p None = [mkItem (NRoot localRoot); mkItem (NRoot remoteRoot)] /\
  collapsibleState (node (mkItem (NRoot localRoot))) = Expanded /\
  collapsibleState (node child) = CollapsibleNone /\
  getChildren p (Some child) = [].
Proof.
  intros p child.
  destruct (tree_has_two_levels p) as (Htop & Hroots & Hleaves).
  split; [exact Htop |].
  split; [apply Hroots; left; reflexivity |].
  apply (Hleaves (mkItem (NRoot remoteRoot)) child).
  left. reflexivity.
Defined.

(** X2: the tree mirrors the snapshot: under Local Binaries there is one item
    per local binary, labelled with its name, in order; under Remote
    Artifacts there is one item per artifact, labelled with its name, in
    order, or the single placeholder when there is none, so Remote Artifacts
    is never empty. *)
Theorem tree_mirrors_snapshot (p : Provider) :
  let labels element := map (fun i => itemLabel (node i)) (getChildren p (Some element)) in
  labels (mkItem (NRoot localRoot)) = map bin_name (localBinaries p) /\
  labels (mkItem (NRoot remoteRoot))
    = (if decide (artifacts p = []) then ["No artifacts found"] else map name (artifacts p)) /\
  length (getChildren p (Some (mkItem (NRoot remoteRoot)))) = Nat.max 1 (length (artifacts p)).
Proof.
  cbn zeta. cbn [getChildren node]. split; [| split].
  - rewrite List.map_map. reflexivity.
  - destruct (artifacts p) as [|a l]; [reflexivity |].
    destruct (decide (length (a :: l) = 0)) as [E|_]; [discriminate E |].
    destruct (decide (a :: l = [])) as [E|_]; [discriminate E |].
    rewrite List.map_map. reflexivity.
  - destruct (artifacts p) as [|a l]; [reflexivity |].
    destruct (decide (length (a :: l) = 0)) as [E|_]; [discriminate E |].
    rewrite length_map. cbn [length]. lia.
Qed.

(** ** More on the refresh *)

(** X3: what the tree shows after a refresh: in state ready the top level is
    the two roots and both have children (at least one local binary; the
    artifacts or the placeholder); in any other state the top level is empty
    and no artifact is held. *)
Theorem tree_after_refresh env m :
  let p := this (after refreshArtifacts env m) in
  (state p = ready ->
   map node (getChildren p None) = [NRoot localRoot; NRoot remoteRoot] /\
   getChildren p (Some (mkItem (NRoot localRoot))) <> [] /\
   getChildren p (Some (mkItem (NRoot remoteRoot))) <> []) /\
  (state p <> ready -> getChildren p None = [] /\ artifacts p = []).
Proof.
  destruct (refreshArtifacts_after env m) as [_ _ _ _ Hready Harts].
  cbn zeta. split.
  - intros Hs. destruct (Hready Hs) as (Hbins & _).
    cbn [getChildren node]. rewrite Hs. split; [reflexivity |]. split.
    + destruct (localBinaries (this (after refreshArtifacts env m))); [congruence | discriminate].
    + destruct (decide _); [discriminate |].
      destruct (artifacts (this (after refreshArtifacts env m))); [contradiction | discriminate].
  - intros Hs. split; [| exact (Harts Hs)].
    cbn [getChildren].
    destruct (state (this (after refreshArtifacts env m))); [reflexivity | reflexivity | congruence].
Qed.

Lemma tree_after_refresh_witness :
  let env := scenarioEnv (standalone (Ok [mine])) in
  let p := this (after refreshArtifacts env freshMachine) in
  map node (getChildren p None) = [NRoot localRoot; NRoot remoteRoot] /\
  getChildren p (Some (mkItem (NRoot localRoot))) <> [] /\
  getChildren p (Some (mkItem (NRoot remoteRoot))) <> [].
Proof.
  intros env p.
  destruct (tree_after_refresh env freshMachine) as (Hready & _).
  apply Hready. reflexivity.
Defined.

(** X4: the registry calls of a refresh: it never uploads, deletes or changes
    a visibility; it probes the capabilities first and asks for the artifact
    list at most once, with the token the provider holds at the end; the
    list is asked for exactly when the refresh got past the workspace
    checks, so always in state ready and never in needsWorkspace or
    notLoggedIn. *)
Theorem refresh_registry_calls env m :
  let m' := after refreshArtifacts env m in
  let calls := List.filter isNetwork (added m m') in
  List.filter isMutation (added m m') = [] /\
  (calls = [EFetchCapabilities] \/
   calls = [EFetchCapabilities; EListArtifacts (token (this m'))]) /\
  (state (this m') = ready ->
   calls = [EFetchCapabilities; EListArtifacts (token (this m'))]) /\
  (state (this m') = needsWorkspace \/ stateDetail (this m') = notLoggedIn ->
   calls = [EFetchCapabilities]).
Proof.
  destruct m as [p s t].
  unfold after, refreshArtifacts, refreshArtifacts_reset, refreshArtifacts_try,
    refreshArtifacts_workspace, refreshArtifacts_catch.
  step. crunch.
  all: cbn zeta; added_events; cbn [List.filter isNetwork isMutation].
  all: split; [reflexivity |].
  all: split; [first [left; reflexivity | right; reflexivity] |].
  all: split; [intros ?; first [reflexivity | congruence] |].
  all: intros [?|?]; first [reflexivity | congruence].
Qed.

Lemma refresh_registry_calls_witness :
  let env := scenarioEnv (mkScenario (Ok (mkCapabilities true)) (Some "/bot") (Ok true)
                            (Ok [car]) (Ok [mine]) (Throw EmptyString) (Throw EmptyString)
                            None None) in
  let m := mkMachine initialProvider (Some "t0k3n") [] in
  List.filter isNetwork (added m (after refreshArtifacts env m))
  = [EFetchCapabilities; EListArtifacts (Some "t0k3n")].
Proof.
  intros env m.
  destruct (refresh_registry_calls env m) as (_ & _ & Hready & _).
  apply Hready. reflexivity.
Defined.

(** The token field and the session store after a refresh. *)
Lemma refreshArtifacts_token_store env m :
  let m' := after refreshArtifacts env m in
  (forall caps, on_fetchCapabilities env (trace m ++ [EGetWorkspaceRoot]) = Ok caps ->
                token (this m') = if auth_required caps then secrets m else None) /\
  (forall error, on_fetchCapabilities env (trace m ++ [EGetWorkspaceRoot]) = Throw error ->
                 token (this m') = token (this m)) /\
  (stateDetail (this m') = sessionExpired -> secrets m' = None) /\
  (stateDetail (this m') <> sessionExpired -> secrets m' = secrets m).
Proof.
  destruct m as [p s t].
  unfold after, refreshArtifacts, refreshArtifacts_reset, refreshArtifacts_try,
    refreshArtifacts_workspace, refreshArtifacts_catch.
  step. crunch.
  all: cbn zeta; repeat split; intros; try congruence.
  all: match goal with
       | H : Ok _ = Ok _ |- _ => injection H as <-
       end;
       match goal with
       | H : auth_required _ = _ |- _ => rewrite H
       end; reflexivity.
Qed.

(** X5: the token field and the session store after a refresh: when the
    probe answers, the field holds what the store held if a login is asked
    for and nothing otherwise; when the probe throws, the field is left as
    it was.  The store is emptied exactly when the refresh ends in
    sessionExpired - and the field is not: it keeps the rejected token. *)
Theorem refresh_token_field env m :
  let m' := after refreshArtifacts env m in
  (forall caps, on_fetchCapabilities env (trace m ++ [EGetWorkspaceRoot]) = Ok caps ->
                token (this m') = if auth_required caps then secrets m else None) /\
  (forall error, on_fetchCapabilities env (trace m ++ [EGetWorkspaceRoot]) = Throw error ->
                 token (this m') = token (this m)) /\
  (stateDetail (this m') = sessionExpired -> secrets m' = None) /\
  (stateDetail (this m') <> sessionExpired -> secrets m' = secrets m).
Proof. exact (refreshArtifacts_token_store env m). Qed.

Lemma refresh_token_field_witness :
  let env := scenarioEnv (mkScenario (Ok (mkCapabilities true)) (Some "/bot") (Ok true)
                            (Ok [car]) (Throw "Error: GET /api/v1/artifacts failed: 401")
                            (Throw EmptyString) (Throw EmptyString) None None) in
  let m := mkMachine initialProvider (Some "t0k3n") [] in
  let m' := after refreshArtifacts env m in
  token (this m') = Some "t0k3n" /\ secrets m' = None.
Proof.
  intros env m m'.
  destruct (refresh_token_field env m) as (Hfield & _ & Hstore & _).
  split.
  - apply (Hfield (mkCapabilities true)). reflexivity.
  - apply Hstore. reflexivity.
Defined.

(** Follow two refreshes side by side against an environment that answers
    the same every time. *)
Ltac crunch_stationary Hroot Hcaps Hman Hbins Harts :=
  repeat (reduce;
    match goal with
    | |- context [on_getWorkspaceRoot ?e (?t ++ ?l)] => rewrite (Hroot (t ++ l))
    | |- context [on_fetchCapabilities ?e (?t ++ ?l)] => rewrite (Hcaps (t ++ l))
    | |- context [on_hasCargoToml ?e (?t ++ ?l) ?r] => rewrite (Hman (t ++ l) r)
    | |- context [on_listLocalBinaries ?e (?t ++ ?l) ?r] => rewrite (Hbins (t ++ l) r)
    | |- context [on_listArtifacts ?e (?t ++ ?l) ?k] => rewrite (Harts (t ++ l) k)
    | |- context [pushContext ?e ?m] => rewrite (pushContext_run e m)
    | |- context [match ?x with Ok _ => _ | Throw _ => _ end] => destruct x eqn:?
    | |- context [if ?b then _ else _] => destruct b eqn:?
    end);
  reduce.

(** Against such an environment the provider and the store a refresh leaves
    depend on the store it found and, when the probe throws, on the token
    field it found; on nothing else of the machine. *)
Lemma refreshArtifacts_depends env ma mb :
  Stationary env ->
  secrets ma = secrets mb ->
  (forall error, on_fetchCapabilities env [] = Throw error ->
                 token (this ma) = token (this mb)) ->
  this (after refreshArtifacts env ma) = this (after refreshArtifacts env mb) /\
  secrets (after refreshArtifacts env ma) = secrets (after refreshArtifacts env mb).
Proof.
  intros (Hroot & Hcaps & Hman & Hbins & Harts).
  destruct ma as [pa sa ta], mb as [pb sb tb]. cbn [secrets this]. intros <- Htok.
  unfold after, refreshArtifacts, refreshArtifacts_reset, refreshArtifacts_try,
    refreshArtifacts_workspace, refreshArtifacts_catch.
  step. rewrite (Hroot ta), (Hroot tb).
  crunch_stationary Hroot Hcaps Hman Hbins Harts.
  all: try (split; reflexivity).
  all: rewrite (Htok _ eq_refl); split; reflexivity.
Qed.

(** X6: against a world that answers the same every time, refreshing again
    changes nothing - same status, token, root and snapshots, same session
    store - unless the first refresh ended in sessionExpired (it emptied the
    store, so the next one may find no token). *)
Theorem refresh_twice env m :
  Stationary env ->
  let m1 := after refreshArtifacts env m in
  let m2 := after refreshArtifacts env m1 in
  stateDetail (this m1) <> sessionExpired ->
  this m2 = this m1 /\ secrets m2 = secrets m1.
Proof.
  intros Hstationary m1 m2 Hvalid.
  destruct (refreshArtifacts_token_store env m) as (_ & Hthrow & _ & Hstore).
  apply (refreshArtifacts_depends env m1 m Hstationary).
  - apply Hstore. exact Hvalid.
  - intros error Herror. apply (Hthrow error).
    destruct Hstationary as (_ & Hcaps & _). rewrite Hcaps. exact Herror.
Qed.

Lemma refresh_twice_witness :
  let env := scenarioEnv (standalone (Throw "Error: GET /api/v1/artifacts failed: 500")) in
  let m1 := after refreshArtifacts env readyMachine in
  let m2 := after refreshArtifacts env m1 in
  this m2 = this m1 /\ secrets m2 = secrets m1.
Proof.
  intros env m1 m2.
  apply (refresh_twice env readyMachine).
  - repeat split.
  - discriminate.
Defined.

(** ** The workflows, call by call *)

Lemma falsy_false (x : option string) :
  falsy x = false -> exists s, x = Some s /\ s <> EmptyString.
Proof.
  destruct x as [s|]; [| discriminate]. cbn [falsy].
  destruct (decide (s = EmptyString)); [discriminate |]. eauto.
Qed.

Lemma nonblank_note (note : option string) (trimmed : string) :
  negb (falsy note) && bool_decide (0 < String.length trimmed) = true ->
  trimmed <> EmptyString.
Proof.
  intros H ->. apply andb_prop in H as [_ H]. vm_compute in H. discriminate H.
Qed.

(** What [uploadFromLocalBinary] leaves behind, whatever the world answers. *)
Lemma uploadFromLocalBinary_shape env bin defaultName m :
  let m' := after (uploadFromLocalBinary bin defaultName) env m in
  this m' = this m /\ secrets m' = secrets m /\
  exists l, trace m' = trace m ++ l /\
    (List.filter isNetwork l = [] \/
     exists req, List.filter isNetwork l = [EUploadArtifact req (token (this m))] /\
                 up_name req <> EmptyString /\ up_note req <> Some EmptyString).
Proof.
  destruct m as [p s t].
  unfold after, uploadFromLocalBinary. step. crunch.
  all: cbn zeta; split; [reflexivity |]; split; [reflexivity |].
  all: eexists; split; [rewrite <- ?app_assoc; cbn [app]; reflexivity |].
  all: cbn [List.filter isNetwork].
  all: try (left; reflexivity).
  all: right; eexists; split; [reflexivity |]; cbn [up_name up_note].
  all: split;
    [ match goal with
      | H : falsy ?x = false |- default _ ?x <> _ =>
          destruct (falsy_false x H) as (n & -> & Hn); exact Hn
      end
    | first [ discriminate
            | intros E; injection E as E;
              match goal with
              | H : _ && _ = true |- _ => exact (nonblank_note _ _ H E)
              end ] ].
Qed.

(** X7: [uploadFromLocalBinary] changes neither the provider nor the session
    store, and of the registry it calls at most the upload, once, with the
    provider's token; the request never carries an empty name or an empty
    note (a blank note is sent as null). *)
Theorem upload_touches_nothing_else env bin defaultName m :
  let m' := after (uploadFromLocalBinary bin defaultName) env m in
  let calls := List.filter isNetwork (added m m') in
  this m' = this m /\ secrets m' = secrets m /\
  (calls = [] \/
   exists req, calls = [EUploadArtifact req (token (this m))] /\
               up_name req <> EmptyString /\ up_note req <> Some EmptyString).
Proof.
  destruct (uploadFromLocalBinary_shape env bin defaultName m)
    as (Hthis & Hstore & l & Htrace & Hcalls).
  cbn zeta. rewrite (added_app _ _ _ Htrace). auto.
Qed.

(** X8: where an upload comes from: whenever [uploadFromLocalBinary] calls
    the upload, the build of that binary succeeded, its ELF was found at the
    output path, the name sent is the one the operator entered in the name
    box, the content is the encoding of the file read at that very path, and
    the token is the provider's. *)
Theorem upload_provenance env bin defaultName m req tok :
  let elfPath := artifactOutputPath env (rootPath bin) (bin_name bin) in
  let built := trace m ++ [EBuildBinary (rootPath bin) (bin_name bin)] in
  let checked := built ++ [EExistsSync elfPath] in
  In (EUploadArtifact req tok) (added m (after (uploadFromLocalBinary bin defaultName) env m)) ->
  on_buildBinary env (trace m) (rootPath bin) (bin_name bin) = Ok tt /\
  on_existsSync env built elfPath = true /\
  on_showInputBox env checked "Artifact Name" defaultName = Ok (Some (up_name req)) /\
  (exists bytes h, on_readFileSync env h elfPath = Ok bytes /\
                   elf_base64 req = base64 env bytes) /\
  tok = token (this m).
Proof.
  destruct m as [p s t].
  unfold after, uploadFromLocalBinary. step. crunch.
  all: cbn zeta; added_events; cbn [In].
  all: intros Hin; repeat (destruct Hin as [Hin | Hin]; try discriminate Hin);
    try contradiction.
  all: injection Hin as <- <-; cbn [up_name elf_base64].
  all: match goal with
       | H : falsy ?x = false |- _ => destruct (falsy_false x H) as (n & -> & Hn)
       end.
  all: match goal with
       | H : negb ?b = false |- _ => destruct b eqn:?; [| discriminate H]
       end.
  all: match goal with
       | H : on_buildBinary _ _ _ _ = Ok ?u |- _ => destruct u
       end.
  all: repeat split; eauto.
Qed.

Lemma upload_provenance_witness :
  let env := scenarioEnv (standalone (Ok [mine])) in
  let req := mkUploadRequest "car" None "riscv32" EmptyString in
  on_buildBinary env (trace readyMachine) "/bot" "car" = Ok tt /\
  on_existsSync env (trace readyMachine ++ [EBuildBinary "/bot" "car"]) "/bot/target/car" = true /\
  on_showInputBox env ((trace readyMachine ++ [EBuildBinary "/bot" "car"])
                         ++ [EExistsSync "/bot/target/car"]) "Artifact Name" "car"
    = Ok (Some (up_name req)) /\
  (exists bytes h, on_readFileSync env h "/bot/target/car" = Ok bytes /\
                   elf_base64 req = base64 env bytes) /\
  None = token (this readyMachine).
Proof.
  intros env req.
  apply (upload_provenance env car "car" readyMachine req None).
  vm_compute. find_event.
Defined.

Lemma refreshArtifacts_grows env m r m' :
  refreshArtifacts env m = (r, m') ->
  exists l, trace m' = trace m ++ l /\ List.filter isMutation l = [].
Proof.
  intros H. pose proof (refreshArtifacts_after env m) as S.
  unfold after in S. rewrite H in S. cbn [snd] in S.
  destruct (settled_published _ _ _ S) as (mid & Ht & Hmid).
  exists (mid ++ publication env (this m')). split; [exact Ht |].
  rewrite List.filter_app, (filter_no_mutation mid Hmid). reflexivity.
Qed.

Ltac after_refresh :=
  repeat match goal with
  | H : refreshArtifacts _ _ = (_, _) |- _ =>
      let l := fresh "l" in let Hl := fresh "Hl" in let Hf := fresh "Hf" in
      destruct (refreshArtifacts_grows _ _ _ _ H) as (l & Hl & Hf);
      cbn [trace] in Hl; clear H
  end.

Ltac mutations :=
  first
    [ erewrite added_app
        by (cbn [trace]; repeat match goal with Hl : trace _ = _ |- _ => rewrite Hl end;
            rewrite <- ?app_assoc; cbn [app]; reflexivity)
    | unfold added; cbn [trace]; rewrite drop_all ];
  cbn [List.filter isMutation];
  rewrite ?List.filter_app;
  repeat match goal with Hf : List.filter isMutation _ = [] |- _ => rewrite Hf end;
  cbn [List.filter isMutation app].

(** X9: what each command can change in the registry, whatever the world
    answers: refresh, build and reveal nothing; Build and Upload at most one
    upload; Delete at most the delete of the item's artifact; Toggle
    Visibility at most one change, to the opposite of the item's flag;
    Replace at most one upload and one delete of the old artifact, the
    upload first.  Delete, Toggle and Replace change something only for an
    owned artifact, and every call carries the provider's token. *)
Theorem registry_mutations_per_command (c : Command) env m :
  let muts := List.filter isMutation (added m (after (executeCommand c) env m)) in
  let tok := token (this m) in
  match c with
  | view_refresh | view_buildBinary _ | view_revealElfPath _ => muts = []
  | view_buildAndUpload _ =>
      muts = [] \/ exists req, muts = [EUploadArtifact req tok]
  | view_deleteArtifact item =>
      muts = [] \/
      exists a, item = Some (mkItem (NRemoteArtifact a)) /\ owned_by_me a = true /\
                muts = [EDeleteArtifact (id a) tok]
  | view_toggleVisibility item =>
      muts = [] \/
      exists a, item = Some (mkItem (NRemoteArtifact a)) /\ owned_by_me a = true /\
                muts = [EUpdateArtifactVisibility (id a) (negb (is_public a)) tok]
  | view_replaceArtifact item =>
      muts = [] \/
      exists a, item = Some (mkItem (NRemoteArtifact a)) /\ owned_by_me a = true /\
                (muts = [EDeleteArtifact (id a) tok] \/
                 exists req, muts = [EUploadArtifact req tok] \/
                             muts = [EUploadArtifact req tok; EDeleteArtifact (id a) tok])
  end.
Proof.
  destruct m as [p s t].
  unfold after, executeCommand, registerCommand, handler.
  destruct c as [|item|item|item|item|item|item];
    try (destruct item as [[[k|b|a|msg]]|]);
    unfold buildAndUploadBinary, buildBinaryItem, revealElfPath, replaceArtifact,
      deleteArtifact, toggleVisibility, uploadFromLocalBinary, getCurrentLocalBinaries;
    cbn [fmap option_fmap option_map node];
    step; crunch; cbn zeta; after_refresh.
  all: mutations.
  all: try (first [reflexivity | left; reflexivity | right; eexists; reflexivity]).
  all: right; exists a; split; [reflexivity |];
    (split; [destruct (owned_by_me a); [reflexivity | discriminate] |]).
  all: first [ reflexivity
             | congruence
             | left; reflexivity
             | right; eexists; left; reflexivity
             | right; eexists; right; reflexivity ].
Qed.

Lemma refreshArtifacts_never_throws env m error m' :
  refreshArtifacts env m = (Throw error, m') -> False.
Proof.
  intros H. pose proof (refreshArtifacts_result env m) as R.
  unfold result in R. rewrite H in R. discriminate R.
Qed.

Ltac refresh_threw :=
  match goal with
  | H : refreshArtifacts _ _ = (Throw _, _) |- _ =>
      exfalso; exact (refreshArtifacts_never_throws _ _ _ _ H)
  end.

Ltac unfold_handlers :=
  unfold buildAndUploadBinary, buildBinaryItem, revealElfPath, replaceArtifact,
    deleteArtifact, toggleVisibility, uploadFromLocalBinary, getCurrentLocalBinaries;
  cbn [fmap option_fmap option_map node].

(** X10: a command whose method throws has changed neither the status, nor
    the token, nor the artifacts, nor the session store, and has published
    nothing; the command wrapper then shows that error as its last act. *)
Theorem failed_command_changes_nothing (c : Command) env m error :
  result (handler c) env m = Throw error ->
  let m' := after (handler c) env m in
  state (this m') = state (this m) /\
  stateDetail (this m') = stateDetail (this m) /\
  token (this m') = token (this m) /\
  artifacts (this m') = artifacts (this m) /\
  secrets m' = secrets m /\
  Forall (fun e => isPublication e = false) (added m m') /\
  executeCommand c env m = (Ok tt, log m' (EShowErrorMessage error)).
Proof.
  destruct m as [p s t].
  unfold result, after, executeCommand, registerCommand, handler.
  destruct c as [|item|item|item|item|item|item];
    try (destruct item as [[[k|b|a|msg]]|]);
    unfold_handlers; step; crunch; cbn zeta.
  all: intros Hthrow; try discriminate Hthrow; try refresh_threw.
  all: injection Hthrow as ->.
  all: repeat (split; [reflexivity |]).
  all: split; [| reflexivity].
  all: first [ added_events; repeat constructor
             | unfold added; cbn [trace]; rewrite drop_all; constructor ].
Qed.

Lemma failed_command_changes_nothing_witness :
  let env := scenarioEnv (mkScenario (Ok (mkCapabilities false)) (Some "/bot") (Ok true)
                            (Ok [car]) (Ok [mine]) (Ok (mkUploadResponse 42))
                            (Throw "Error: DELETE /api/v1/artifacts/7 failed: 500")
                            (Some "car") (Some "Delete")) in
  let c := view_deleteArtifact (Some (mkItem (NRemoteArtifact mine))) in
  let m' := after (handler c) env readyMachine in
  state (this m') = state (this readyMachine) /\
  stateDetail (this m') = stateDetail (this readyMachine) /\
  token (this m') = token (this readyMachine) /\
  artifacts (this m') = artifacts (this readyMachine) /\
  secrets m' = secrets readyMachine /\
  Forall (fun e => isPublication e = false) (added readyMachine m') /\
  executeCommand c env readyMachine
  = (Ok tt, log m' (EShowErrorMessage "Error: DELETE /api/v1/artifacts/7 failed: 500")).
Proof.
  intros env c.
  apply (failed_command_changes_nothing c env readyMachine
           "Error: DELETE /api/v1/artifacts/7 failed: 500").
  reflexivity.
Defined.

(** X11: a Replace that throws has not called the delete: as long as no
    replacement is in place the old artifact is left alone. *)
Theorem failed_replace_never_deleted env m item error :
  result (replaceArtifact item) env m = Throw error ->
  Forall (fun e => isDelete e = false) (added m (after (replaceArtifact item) env m)).
Proof.
  destruct m as [p s t].
  unfold result, after.
  destruct item as [[[k|b|a|msg]]|];
    unfold_handlers; step; crunch; cbn zeta.
  all: repeat match goal with
       | |- context [refreshArtifacts ?e ?M] =>
           let H := fresh "Hrefresh" in
           destruct (refreshArtifacts e M) as [[[]|?] ?] eqn:H
       end; reduce.
  all: intros Hthrow; try discriminate Hthrow; try refresh_threw.
  all: first [ added_events; repeat constructor
             | unfold added; cbn [trace]; rewrite drop_all; constructor ].
Qed.

Lemma failed_replace_never_deleted_witness :
  let env := scenarioEnv (mkScenario (Ok (mkCapabilities false)) (Some "/bot") (Ok true)
                            (Ok [car]) (Ok [mine])
                            (Throw "Error: POST /api/v1/artifacts failed: 413") (Ok tt)
                            (Some "car") None) in
  let item := Some (mkItem (NRemoteArtifact mine)) in
  Forall (fun e => isDelete e = false)
         (added readyMachine (after (replaceArtifact item) env readyMachine)).
Proof.
  intros env item.
  apply (failed_replace_never_deleted env readyMachine item
           "Error: POST /api/v1/artifacts failed: 413").
  reflexivity.
Defined.

Ltac in_log Hin :=
  repeat (destruct Hin as [Hin | Hin]; try discriminate Hin); try contradiction.

(** X12: Build Binary and Reveal ELF Path stay local: they change neither the
    provider nor the session store and call nothing of the registry; the
    "Built binary" message is shown only after the build of the item's
    binary succeeded, and what is revealed is only ever the output path of
    the item's binary, after it was found to exist. *)
Theorem local_commands_stay_local env m (item : option RaceHubItem) :
  let mb := after (buildBinaryItem item) env m in
  let mr := after (revealElfPath item) env m in
  (this mb = this m /\ secrets mb = secrets m /\ List.filter isNetwork (added m mb) = []) /\
  (this mr = this m /\ secrets mr = secrets m /\ List.filter isNetwork (added m mr) = []) /\
  (forall msg, In (EShowInformationMessage msg) (added m mb) ->
     exists bin, item = Some (mkItem (NLocalBin bin)) /\
                 on_buildBinary env (trace m) (rootPath bin) (bin_name bin) = Ok tt) /\
  (forall file, In (ERevealFileInOS file) (added m mr) ->
     exists bin, item = Some (mkItem (NLocalBin bin)) /\
                 file = artifactOutputPath env (rootPath bin) (bin_name bin) /\
                 on_existsSync env (trace m) file = true).
Proof.
  destruct m as [p s t].
  unfold after.
  destruct item as [[[k|b|a|msg]]|]; unfold_handlers; step; crunch; cbn zeta.
  all: repeat added_events; try (unfold added; cbn [trace]; rewrite ?drop_all).
  all: cbn [List.filter isNetwork In].
  all: repeat split; try (intros ? Hin; in_log Hin).
  all: exists b; split; [reflexivity |].
  all: repeat match goal with
       | u : unit |- _ => destruct u
       | H : negb ?x = false |- _ => destruct x eqn:?; [clear H | discriminate H]
       end.
  all: first [ assumption | injection Hin as <-; split; [reflexivity | assumption] ].
Qed.

Lemma local_commands_stay_local_witness :
  let env := scenarioEnv (standalone (Ok [])) in
  let item := Some (mkItem (NLocalBin car)) in
  exists bin, item = Some (mkItem (NLocalBin bin)) /\
              "/bot/target/car" = artifactOutputPath env (rootPath bin) (bin_name bin) /\
              on_existsSync env (trace readyMachine) "/bot/target/car" = true.
Proof.
  intros env item.
  destruct (local_commands_stay_local env readyMachine item) as (_ & _ & _ & Hreveal).
  apply Hreveal. vm_compute. find_event.
Defined.

(** X13: [getCurrentLocalBinaries] and the cached collection, case by case
    on what the workspace answers: with no workspace root, or a manifest
    that is not there, it answers the empty list and leaves the provider as
    it was, cached binaries included; with a manifest it stores the root in
    [workspaceRoot] and then answers the very list it stores in
    [localBinaries]; when the manifest check throws the provider is as it
    was, and when the listing throws the cached collection is untouched. *)
Theorem current_binaries_cache env m :
  let root := on_getWorkspaceRoot env (trace m) in
  let dir := default EmptyString root in
  let asked := trace m ++ [EGetWorkspaceRoot] in
  let answer := result getCurrentLocalBinaries env m in
  let m1 := after getCurrentLocalBinaries env m in
  if falsy root then answer = Ok [] /\ this m1 = this m
  else
    match on_hasCargoToml env asked dir with
    | Throw error => answer = Throw error /\ this m1 = this m
    | Ok false => answer = Ok [] /\ this m1 = this m
    | Ok true =>
        workspaceRoot (this m1) = root /\
        match on_listLocalBinaries env (asked ++ [EHasCargoToml dir]) dir with
        | Ok bins => answer = Ok bins /\ localBinaries (this m1) = bins
        | Throw error =>
            answer = Throw error /\ localBinaries (this m1) = localBinaries (this m)
        end
    end.
Proof.
  destruct m as [p s t].
  unfold result, after, getCurrentLocalBinaries. step. cbn zeta.
  destruct (falsy (on_getWorkspaceRoot env t)); reduce; [split; reflexivity |].
  destruct (on_hasCargoToml env _ _) as [[|]|error]; reduce;
    [| split; reflexivity | split; reflexivity].
  destruct (on_listLocalBinaries env _ _) as [bins|error]; reduce;
    (split; [reflexivity | split; reflexivity]).
Qed.

(** X14: a refresh looks at the workspace it just asked for: [workspaceRoot]
    ends up being the root answered at the start of this refresh, and the
    manifest check and the listing of binaries are made on that root only,
    the listing never without the check before it. *)
Theorem refresh_inspects_the_current_root env m :
  let root := on_getWorkspaceRoot env (trace m) in
  let m' := after refreshArtifacts env m in
  let inspections := List.filter isInspection (added m m') in
  workspaceRoot (this m') = root /\
  (inspections = [] \/
   exists dir, root = Some dir /\ dir <> EmptyString /\
               (inspections = [EHasCargoToml dir] \/
                inspections = [EHasCargoToml dir; EListLocalBinaries dir])).
Proof.
  destruct m as [p s t].
  unfold after, refreshArtifacts, refreshArtifacts_reset, refreshArtifacts_try,
    refreshArtifacts_workspace, refreshArtifacts_catch.
  step. crunch. all: cbn zeta; added_events; cbn [List.filter isInspection].
  all: split; [reflexivity |].
  all: try (left; reflexivity).
  all: right;
    match goal with
    | H : falsy ?x = false |- _ => destruct (falsy_false x H) as (dir & Hdir & Hne)
    end;
    exists dir; rewrite Hdir; cbn [default];
    split; [reflexivity |]; split; [exact Hne |];
    first [left; reflexivity | right; reflexivity].
Qed.


(** ** The allowed source paths *)

(** What an assignment leaves under a key. *)
Lemma assign_lookup (key k : string) (value v : bool) (obj : gmap string bool) :
  assign key value obj !! k = Some v <->
  (key = k /\ k <> "__proto__" /\ value = v) \/
  ((key <> k \/ k = "__proto__") /\ obj !! k = Some v).
Proof.
  unfold assign. destruct (decide (key = "__proto__")) as [Hp|Hp].
  - split.
    + intros H. right. split; [| exact H].
      destruct (decide (key = k)) as [<-|]; [right; exact Hp | left; assumption].
    + intros [(<- & Hk & _) | (_ & H)]; [contradiction | exact H].
  - rewrite lookup_insert. destruct (decide (key = k)) as [<-|Hk].
    + split.
      * intros [= <-]. left. auto.
      * intros [(_ & _ & ->) | ([H | H] & _)]; [reflexivity | contradiction..].
    + split.
      * intros H. right. auto.
      * intros [(H & _) | (_ & H)]; [contradiction | exact H].
Qed.

Lemma allowBinary_lookup env (allowed : gmap string bool) bin (k : string) :
  (allowBinary env allowed bin !! k = Some true <->
   allowed !! k = Some true \/ (k <> "__proto__" /\ allowsPath env bin k)) /\
  (allowBinary env allowed bin !! k = Some false -> allowed !! k = Some false).
Proof.
  unfold allowBinary. destruct (falsy (sourcePath bin)) eqn:Hfalsy.
  - assert (Hnone : ~ allowsPath env bin k).
    { intros (sp & Hsp & Hne & _). rewrite Hsp in Hfalsy. cbn in Hfalsy.
      destruct (decide (sp = EmptyString)); [contradiction | discriminate]. }
    tauto.
  - destruct (falsy_false _ Hfalsy) as (sp & Hsp & Hne). rewrite Hsp.
    cbn [default from_option]. unfold Datatypes.id. cbn zeta.
    set (n := path_normalize env sp).
    assert (Hbin : allowsPath env bin k <->
                   k = n \/ k = uri_fsPath env n \/ k = uri_path env n).
    { split.
      - intros (sp' & Hsp' & _ & Hk). rewrite Hsp in Hsp'. injection Hsp' as <-. exact Hk.
      - intros Hk. exists sp. auto. }
    rewrite Hbin. split.
    + rewrite !assign_lookup. split.
      * intros [(<- & Hk & _) | (_ & [(<- & Hk & _) | (_ & [(<- & Hk & _) | (_ & H)])])]; auto.
      * intros [H | (Hk & Hkeys)].
        -- destruct (decide (uri_path env n = k)) as [E1|N1];
             [destruct (decide (k = "__proto__")); [right | left]; auto |].
           all: try (split; [right; assumption |]).
           all: try (right; split; [left; exact N1 |]).
           all: destruct (decide (uri_fsPath env n = k)) as [E2|N2];
             [destruct (decide (k = "__proto__")); [right | left]; auto |].
           all: try (split; [right; assumption |]).
           all: try (right; split; [left; exact N2 |]).
           all: destruct (decide (n = k)) as [E3|N3];
             [destruct (decide (k = "__proto__")); [right | left]; auto |].
           all: try (split; [right; assumption |]).
           all: try (right; split; [left; exact N3 |]); try exact H.
           all: try (right; split; [right; assumption | exact H]).
        -- destruct (decide (uri_path env n = k)) as [E1|N1]; [left; auto |].
           right. split; [left; exact N1 |].
           destruct (decide (uri_fsPath env n = k)) as [E2|N2]; [left; auto |].
           right. split; [left; exact N2 |].
           destruct (decide (n = k)) as [E3|N3]; [left; auto |].
           exfalso. destruct Hkeys as [-> | [-> | ->]]; congruence.
    + rewrite !assign_lookup.
      intros [(_ & _ & [=]) | (_ & [(_ & _ & [=]) | (_ & [(_ & _ & [=]) | (_ & H)])])].
      exact H.
Qed.

Lemma binSourcePaths_fold env (bins : list LocalBinary) (acc : gmap string bool) (k : string) :
  (foldl (allowBinary env) acc bins !! k = Some true <->
   acc !! k = Some true \/
   (k <> "__proto__" /\ exists bin, In bin bins /\ allowsPath env bin k)) /\
  (foldl (allowBinary env) acc bins !! k = Some false -> acc !! k = Some false).
Proof.
  revert acc. induction bins as [|bin bins IH]; intros acc; cbn [foldl].
  - split; [| tauto]. split; [tauto |]. intros [H | (_ & bin & [] & _)]. exact H.
  - destruct (IH (allowBinary env acc bin)) as (IHt & IHf).
    destruct (allowBinary_lookup env acc bin k) as (Ht & Hf). split.
    + rewrite IHt, Ht. split.
      * intros [[Hacc | (Hk & Hbin)] | (Hk & b & Hb & Hbin)].
        -- left. exact Hacc.
        -- right. split; [exact Hk |]. exists bin. split; [left; reflexivity | exact Hbin].
        -- right. split; [exact Hk |]. exists b. split; [right; exact Hb | exact Hbin].
      * intros [Hacc | (Hk & b & [<- | Hb] & Hbin)]; eauto.
    + intros H. apply Hf, IHf, H.
Qed.

(** X15: the context key [racehub.binSourcePaths]: a path is an own key of
    the published object, mapped to true, exactly when it is the normalized
    source path of one of the local binaries, or the [fsPath] or the [path]
    of its file URI, and is not [__proto__] (an assignment to that key
    stores nothing); binaries without a source path contribute nothing, and
    no key is ever mapped to false. *)
Theorem bin_source_paths_keys env (bins : list LocalBinary) (k : string) :
  (binSourcePaths env bins !! k = Some true <->
   k <> "__proto__" /\ exists bin, In bin bins /\ allowsPath env bin k) /\
  binSourcePaths env bins !! k <> Some false.
Proof.
  change (binSourcePaths env bins) with (foldl (allowBinary env) ∅ bins).
  destruct (binSourcePaths_fold env bins ∅ k) as (Ht & Hf). split.
  - rewrite Ht, lookup_empty. split; [intros [H | H]; [discriminate H | exact H] | auto].
  - intros H. apply Hf in H. rewrite lookup_empty in H. discriminate H.
Qed.

Lemma bin_source_paths_keys_witness :
  binSourcePaths (scenarioEnv (standalone (Ok [])))
                 [mkLocalBinary "kart" "/bot" None; car] !! "/bot/src/bin/car.rs"
  = Some true.
Proof.
  apply (bin_source_paths_keys (scenarioEnv (standalone (Ok [])))
           [mkLocalBinary "kart" "/bot" None; car] "/bot/src/bin/car.rs").
  split; [discriminate |].
  exists car. split; [right; left; reflexivity |].
  exists "/bot/src/bin/car.rs". split; [reflexivity |]. split; [discriminate |].
  left. reflexivity.
Defined.

Example proto_key_is_not_stored :
  binSourcePaths (scenarioEnv (standalone (Ok [])))
                 [mkLocalBinary "odd" "/bot" (Some "__proto__")] = ∅.
Proof. reflexivity. Qed.

(** X16: no error of a method escapes a registered command, so any sequence
    of commands runs to its end; the wrapper adds nothing to a method that
    returns normally, and never anything to a refresh. *)
Theorem commands_run_to_the_end (cs : list Command) env m :
  result (executeCommands cs) env m = Ok tt /\
  executeCommand view_refresh env m = refreshArtifacts env m /\
  (forall c, result (handler c) env m = Ok tt -> executeCommand c env m = handler c env m).
Proof.
  split; [| split].
  - revert m. induction cs as [|c cs IH]; intros m; [reflexivity |].
    unfold result in *. cbn [executeCommands]. unfold bind.
    unfold executeCommand at 1. unfold registerCommand, try_catch.
    destruct (handler c env m) as [[[]|error] m1]; [apply IH |].
    unfold vscode.showErrorMessage, emit. apply IH.
  - unfold executeCommand, registerCommand, try_catch, handler.
    destruct (refreshArtifacts_settles env m) as (m' & -> & _). reflexivity.
  - intros c. unfold result, executeCommand, registerCommand, try_catch.
    destruct (handler c env m) as [[[]|error] m1]; [reflexivity | discriminate].
Qed.

Lemma commands_run_to_the_end_witness :
  let env := scenarioEnv (standalone (Ok [mine])) in
  let c := view_toggleVisibility (Some (mkItem (NRemoteArtifact mine))) in
  executeCommand c env readyMachine = handler c env readyMachine.
Proof.
  intros env c.
  destruct (commands_run_to_the_end [c] env readyMachine) as (_ & _ & Hok).
  apply Hok. reflexivity.
Defined.
